(** * Sri Lankan NIC decoder: a shallow embedding of [srilanka-nic-decoder.py]

    The development follows the module function by function:
    [is_valid_nic], [parse_nic_base], [nic_to_date] and [decode_nic].

    Conventions of the embedding.
    - A Python [str] is a [string]; each [ascii] is read as the code point
      of the same number, so the strings covered are those over code points
      0..255.  The character classes below are the ones CPython uses on
      that range.
    - A Python [int] is a [Z].
    - A raised exception is a value [Err e]; the constructors of [error]
      name the [raise] sites of the module and of the library calls it
      makes.
    - [datetime] and [timedelta] are used by the module only with a zero
      time of day and a whole number of days, so a [datetime] is modelled
      by its date, and the calendar functions are those of the reference
      implementation of the [datetime] module ([_ymd2ord], [_ord2ymd], ...). *)

From Stdlib Require Import ZArith List String Ascii Bool Lia.
Import ListNotations.

Local Open Scope string_scope.
Local Open Scope Z_scope.

(** ** Results of fallible code *)

Inductive error : Type :=
| InvalidOldNIC      (* ValueError("Invalid old NIC: expected digits in positions 1-5.") *)
| InvalidNewNIC      (* ValueError("Invalid new NIC: expected 12 digits.") *)
| InvalidLength      (* ValueError("Invalid NIC length; expected 10 (old) or 12 (new).") *)
| InvalidLiteral     (* ValueError of int(), where the module does not catch it *)
| DayCodeOutOfRange  (* ValueError("NIC day code out of expected range") *)
| DateOutOfRange     (* ValueError("Computed date out of range") *)
| FieldOutOfRange    (* ValueError of datetime(): year, month or day out of range *)
| IntOverflow.       (* OverflowError of datetime(): year does not fit a C int *)

Inductive result (A : Type) : Type :=
| Ok (a : A)
| Err (e : error).

Arguments Ok {A} a.
Arguments Err {A} e.

Definition bind {A B : Type} (r : result A) (k : A -> result B) : result B :=
  match r with
  | Ok a => k a
  | Err e => Err e
  end.

Notation "x <- r ;; k" := (bind r (fun x => k))
  (at level 61, r at next level, right associativity).
Notation "' p <- r ;; k" := (bind r (fun x => match x with p => k end))
  (at level 61, p pattern, r at next level, right associativity).

(** ** Python strings *)

Module PyStr.

Definition code (c : ascii) : N := N_of_ascii c.

Definition between (lo hi : N) (c : ascii) : bool :=
  ((lo <=? code c) && (code c <=? hi))%N.

Definition code_is (n : N) (c : ascii) : bool := (code c =? n)%N.

(** [Py_UNICODE_ISSPACE]: what [str.strip()] removes. *)
Definition isspace (c : ascii) : bool :=
  between 9 13 c || between 28 32 c || code_is 133 c || code_is 160 c.

(** [Py_UNICODE_ISDECIMAL]: what [\d] matches, and the digits [int()] reads. *)
Definition isdecimal (c : ascii) : bool := between 48 57 c.

(** [Py_UNICODE_ISDIGIT]: the per-character test of [str.isdigit()];
    besides 0-9 it holds of the superscripts 2, 3 and 1. *)
Definition isdigit_char (c : ascii) : bool :=
  isdecimal c || code_is 178 c || code_is 179 c || code_is 185 c.

(** [Py_UNICODE_ISALPHA] on code points below 256. *)
Definition isalpha (c : ascii) : bool :=
  between 65 90 c || between 97 122 c || code_is 170 c || code_is 181 c || code_is 186 c
  || between 192 214 c || between 216 246 c || between 248 255 c.

(** [Py_UNICODE_ISALNUM]: alphabetic, decimal, digit or numeric
    (the vulgar fractions 188..190 are numeric). *)
Definition isalnum (c : ascii) : bool :=
  isalpha c || isdigit_char c || between 188 190 c.

(** What [\w] matches: an alphanumeric character or the underscore. *)
Definition isword (c : ascii) : bool := isalnum c || code_is 95 c.

Fixpoint all (p : ascii -> bool) (s : string) : bool :=
  match s with
  | EmptyString => true
  | String c t => p c && all p t
  end.

Definition is_empty (s : string) : bool :=
  match s with
  | EmptyString => true
  | String _ _ => false
  end.

Fixpoint lstrip (s : string) : string :=
  match s with
  | EmptyString => EmptyString
  | String c t => if isspace c then lstrip t else s
  end.

Fixpoint rstrip (s : string) : string :=
  match s with
  | EmptyString => EmptyString
  | String c t =>
      let t' := rstrip t in
      if isspace c && is_empty t' then EmptyString else String c t'
  end.

(** [s.strip()] *)
Definition strip (s : string) : string := rstrip (lstrip s).

(** [len(s)] *)
Definition len (s : string) : Z := Z.of_nat (String.length s).

(** [s[i:j]] for constant bounds [0 <= i <= j]; like the Python slice it
    is cut short at the end of the string. *)
Definition slice (i j : nat) (s : string) : string := substring i (j - i) s.

(** [s.isdigit()]: every character is a digit and there is at least one. *)
Definition isdigit (s : string) : bool := negb (is_empty s) && all isdigit_char s.

(** *** [int(s)]

    CPython first maps every non-ASCII space to a blank and rejects any
    other non-ASCII character that is not a decimal digit; the literal is
    then: blanks, an optional sign, decimal digits with single
    underscores between them, blanks.  The blanks recognised at this
    stage are those of [Py_ISSPACE] (9..13 and 32), so the separators
    28..31, which [strip] removes, are not accepted by [int]. *)

Definition int_space (c : ascii) : bool :=
  between 9 13 c || code_is 32 c || code_is 133 c || code_is 160 c.

Definition digit_value (c : ascii) : option Z :=
  if isdecimal c then Some (Z.of_N (code c) - 48) else None.

Fixpoint skip_space (s : string) : string :=
  match s with
  | EmptyString => EmptyString
  | String c t => if int_space c then skip_space t else s
  end.

(** Reads on after a digit: more digits, each preceded by at most one
    underscore.  Returns the value read and what is left. *)
Fixpoint scan_digits (acc : Z) (s : string) : Z * string :=
  match s with
  | EmptyString => (acc, s)
  | String c t =>
      match digit_value c with
      | Some d => scan_digits (10 * acc + d) t
      | None =>
          if code_is 95 c then
            match t with
            | EmptyString => (acc, s)
            | String c' t' =>
                match digit_value c' with
                | Some d => scan_digits (10 * acc + d) t'
                | None => (acc, s)
                end
            end
          else (acc, s)
      end
  end.

Definition split_sign (s : string) : bool * string :=
  match s with
  | String c t =>
      if code_is 45 c then (true, t)
      else if code_is 43 c then (false, t)
      else (false, s)
  | EmptyString => (false, s)
  end.

Definition int (s : string) : option Z :=
  let (neg, body) := split_sign (skip_space s) in
  match body with
  | EmptyString => None
  | String c t =>
      match digit_value c with
      | None => None
      | Some d =>
          let (v, rest) := scan_digits d t in
          if is_empty (skip_space rest)
          then Some (if neg then - v else v)
          else None
      end
  end.

End PyStr.

(** ** The regular expressions of the module

    [is_valid_nic] uses one pattern, [^\d{5}\w{5}$]: a sequence of counted
    character classes between the two anchors.  [re.IGNORECASE] changes
    nothing for a pattern without literal characters. *)

Module Re.

Inductive class : Type := Digit | Word.

(** [Repeat k n] is the class [k] followed by [{n}]. *)
Inductive item : Type := Repeat (k : class) (n : nat).

Definition in_class (k : class) (c : ascii) : bool :=
  match k with
  | Digit => PyStr.isdecimal c
  | Word => PyStr.isword c
  end.

Fixpoint take (k : class) (n : nat) (s : string) : option string :=
  match n with
  | O => Some s
  | S n' =>
      match s with
      | EmptyString => None
      | String c t => if in_class k c then take k n' t else None
      end
  end.

Fixpoint run (p : list item) (s : string) : option string :=
  match p with
  | [] => Some s
  | Repeat k n :: p' =>
      match take k n s with
      | Some rest => run p' rest
      | None => None
      end
  end.

(** [$] without [re.MULTILINE]: the end of the string, or just before a
    newline that ends it. *)
Definition at_end (s : string) : bool :=
  match s with
  | EmptyString => true
  | String c EmptyString => PyStr.code_is 10 c
  | _ => false
  end.

(** [bool(re.match("^" p "$", s))] *)
Definition matches (p : list item) (s : string) : bool :=
  match run p s with
  | Some rest => at_end rest
  | None => false
  end.

End Re.

(** ** The calendar of the [datetime] module *)

Module Calendar.

Definition MINYEAR : Z := 1.
Definition MAXYEAR : Z := 9999.
Definition MAXORDINAL : Z := 3652059.

(** The largest number of days a [timedelta] holds. *)
Definition MAX_DELTA_DAYS : Z := 999999999.

Definition INT_MIN : Z := - 2 ^ 31.
Definition INT_MAX : Z := 2 ^ 31 - 1.

Record date : Type := mkdate { year : Z; month : Z; day : Z }.

Definition is_leap (y : Z) : bool :=
  (y mod 4 =? 0) && (negb (y mod 100 =? 0) || (y mod 400 =? 0)).

Definition days_before_year (y : Z) : Z :=
  let y := y - 1 in
  y * 365 + y / 4 - y / 100 + y / 400.

(** [_DAYS_IN_MONTH[m]]; -1 stands at index 0 in the table, and here also
    for the indices the table does not have. *)
Definition DAYS_IN_MONTH (m : Z) : Z :=
  nth (Z.to_nat m) [-1; 31; 28; 31; 30; 31; 30; 31; 31; 30; 31; 30; 31] (-1).

Definition DAYS_BEFORE_MONTH (m : Z) : Z :=
  nth (Z.to_nat m) [-1; 0; 31; 59; 90; 120; 151; 181; 212; 243; 273; 304; 334] (-1).

Definition days_in_month (y m : Z) : Z :=
  if (m =? 2) && is_leap y then 29 else DAYS_IN_MONTH m.

Definition days_before_month (y m : Z) : Z :=
  DAYS_BEFORE_MONTH m + (if (2 <? m) && is_leap y then 1 else 0).

Definition ymd2ord (y m d : Z) : Z :=
  days_before_year y + days_before_month y m + d.

Definition DI400Y : Z := Eval cbv in days_before_year 401.
Definition DI100Y : Z := Eval cbv in days_before_year 101.
Definition DI4Y : Z := Eval cbv in days_before_year 5.

Definition ord2ymd (n : Z) : date :=
  let n := n - 1 in
  let n400 := n / DI400Y in
  let n := n mod DI400Y in
  let y := n400 * 400 + 1 in
  let n100 := n / DI100Y in
  let n := n mod DI100Y in
  let n4 := n / DI4Y in
  let n := n mod DI4Y in
  let n1 := n / 365 in
  let n := n mod 365 in
  let y := y + (n100 * 100 + n4 * 4 + n1) in
  if (n1 =? 4) || (n100 =? 4) then mkdate (y - 1) 12 31
  else
    let leapyear := (n1 =? 3) && (negb (n4 =? 24) || (n100 =? 3)) in
    let m := Z.shiftr (n + 50) 5 in
    let preceding := DAYS_BEFORE_MONTH m + (if (2 <? m) && leapyear then 1 else 0) in
    let '(m, preceding) :=
      if n <? preceding
      then (m - 1,
            preceding - (DAYS_IN_MONTH (m - 1)
                         + (if (m - 1 =? 2) && leapyear then 1 else 0)))
      else (m, preceding) in
    mkdate y m (n - preceding + 1).

(** [date.toordinal()] *)
Definition toordinal (d : date) : Z := ymd2ord (year d) (month d) (day d).

(** [_check_date_fields], the test every constructed date has passed. *)
Definition valid_date (d : date) : Prop :=
  MINYEAR <= year d <= MAXYEAR /\
  1 <= month d <= 12 /\
  1 <= day d <= days_in_month (year d) (month d).

(** [datetime(y, m, d)]: the arguments are converted to C ints, then
    checked. *)
Definition datetime (y m d : Z) : result date :=
  if (y <? INT_MIN) || (INT_MAX <? y) then Err IntOverflow
  else if (y <? MINYEAR) || (MAXYEAR <? y) then Err FieldOutOfRange
  else if (m <? 1) || (12 <? m) then Err FieldOutOfRange
  else if (d <? 1) || (days_in_month y m <? d) then Err FieldOutOfRange
  else Ok (mkdate y m d).

(** [(start + timedelta(days=n)).date()]; [None] stands for the
    [OverflowError] that [timedelta] raises for too many days and that
    the addition raises for a date outside year 1..9999. *)
Definition add_days (start : date) (n : Z) : option date :=
  if MAX_DELTA_DAYS <? Z.abs n then None
  else
    let o := toordinal start + n in
    if (0 <? o) && (o <=? MAXORDINAL) then Some (ord2ymd o) else None.

End Calendar.

Import Calendar.

(** ** The module *)

Definition DEFAULT_NIC_DAY_OFFSET : Z := 2.

Definition OLD : string := "Old NIC".
Definition NEW : string := "New NIC".
Definition MALE : string := "Male".
Definition FEMALE : string := "Female".

Record NICInfo : Type := mkNICInfo {
  nic_type : string;
  gender : string;
  birth_year : Z;
  raw_day_code : Z;
  day_code : Z;
  birth_date : date
}.

Definition is_valid_nic (nic : string) : bool :=
  let nic := PyStr.strip nic in
  if PyStr.len nic =? 10 then
    Re.matches [Re.Repeat Re.Digit 5; Re.Repeat Re.Word 5] nic
  else if PyStr.len nic =? 12 then PyStr.isdigit nic
  else false.

(** [int(s)] under a handler that turns its [ValueError] into [e]. *)
Definition int_or (e : error) (s : string) : result Z :=
  match PyStr.int s with
  | Some v => Ok v
  | None => Err e
  end.

(** Line 90 of [parse_nic_base]: the century of a two-digit year. *)
Definition century_year (year_part : Z) : Z :=
  if (0 <=? year_part) && (year_part <=? 25)
  then 2000 + year_part else 1900 + year_part.

Definition parse_nic_base (nic : string) : result (string * Z * Z) :=
  let nic := PyStr.strip nic in
  if PyStr.len nic =? 10 then
    year_part <- int_or InvalidOldNIC (PyStr.slice 0 2 nic) ;;
    raw_day_code <- int_or InvalidOldNIC (PyStr.slice 2 5 nic) ;;
    let birth_year := century_year year_part in
    Ok (OLD, birth_year, raw_day_code)
  else if PyStr.len nic =? 12 then
    if negb (PyStr.isdigit nic) then Err InvalidNewNIC
    else
      birth_year <- int_or InvalidLiteral (PyStr.slice 0 4 nic) ;;
      raw_day_code <- int_or InvalidLiteral (PyStr.slice 4 7 nic) ;;
      Ok (NEW, birth_year, raw_day_code)
  else Err InvalidLength.

Definition nic_to_date (birth_year day_code offset : Z) : result date :=
  let day_of_year := day_code - offset in
  start <- datetime birth_year 1 1 ;;
  match add_days start day_of_year with
  | Some r => Ok r
  | None => Err DateOutOfRange
  end.

(** Lines 136-141 of [decode_nic]: the gender and the adjusted day code. *)
Definition gender_and_day_code (raw_day_code : Z) : string * Z :=
  if 500 <? raw_day_code then (FEMALE, raw_day_code - 500)
  else (MALE, raw_day_code).

Definition decode_nic (nic : string) (offset : Z) : result NICInfo :=
  '(nic_type, birth_year, raw_day_code) <- parse_nic_base nic ;;
  let '(gender, day_code) := gender_and_day_code raw_day_code in
  if (day_code <? 0) || (366 + offset + 5 <? day_code) then Err DayCodeOutOfRange
  else
    birth_date <- nic_to_date birth_year day_code offset ;;
    Ok (mkNICInfo nic_type gender birth_year raw_day_code day_code birth_date).

(** ** The demonstration script

    [process_nic] of [import_demo.py], the caller that validates before it
    decodes.  The month name and the padding that [strftime] gives depend
    on the locale and the platform, so the formatter is a parameter; it is
    called with the format of the script and the birth date. *)

Definition process_nic (strftime : date -> string -> string)
    (nic_number : string) : result string :=
  if negb (is_valid_nic nic_number) then Ok ("Invalid NIC: " ++ nic_number)
  else
    info <- decode_nic nic_number DEFAULT_NIC_DAY_OFFSET ;;
    Ok (nic_number ++ " -> " ++ strftime (birth_date info) "%B %d, %Y"
        ++ " (" ++ gender info ++ ")").

(** ** Notions of the specification

    The definitions of this part are not code of the module: they say what
    the statements below mean by a calendar date, by the day after and the
    day before a date, and by the shapes of a NIC string. *)

(** A month of the year and a day of that month. *)
Definition calendar_date (d : date) : Prop :=
  1 <= month d <= 12 /\ 1 <= day d <= days_in_month (year d) (month d).

Definition next_day (d : date) : date :=
  if day d <? days_in_month (year d) (month d)
  then mkdate (year d) (month d) (day d + 1)
  else if month d <? 12 then mkdate (year d) (month d + 1) 1
  else mkdate (year d + 1) 1 1.

Definition prev_day (d : date) : date :=
  if 1 <? day d then mkdate (year d) (month d) (day d - 1)
  else if 1 <? month d
  then mkdate (year d) (month d - 1) (days_in_month (year d) (month d - 1))
  else mkdate (year d - 1) 12 31.

(** [d] plus [k] days, one day at a time; [k] may be negative. *)
Definition plus_days (d : date) (k : Z) : date :=
  if 0 <=? k then Nat.iter (Z.to_nat k) next_day d
  else Nat.iter (Z.to_nat (- k)) prev_day d.

(** The shape of an accepted string when the last five characters of the
    old format have to be alphanumeric.  The digits are read as the code
    reads them: decimal digits in the old format, [str.isdigit] in the
    new one. *)
Definition alphanumeric_shape (t : string) : Prop :=
  (PyStr.len t = 10
   /\ PyStr.all PyStr.isdecimal (PyStr.slice 0 5 t) = true
   /\ PyStr.all PyStr.isalnum (PyStr.slice 5 10 t) = true)
  \/ (PyStr.len t = 12 /\ PyStr.all PyStr.isdigit_char t = true).

(** The shape [is_valid_nic] accepts: the last five characters of the old
    format are word characters. *)
Definition word_shape (t : string) : Prop :=
  (PyStr.len t = 10
   /\ PyStr.all PyStr.isdecimal (PyStr.slice 0 5 t) = true
   /\ PyStr.all PyStr.isword (PyStr.slice 5 10 t) = true)
  \/ (PyStr.len t = 12 /\ PyStr.all PyStr.isdigit_char t = true).

(** The number that a string of decimal digits writes. *)
Fixpoint decimal_value_from (acc : Z) (s : string) : Z :=
  match s with
  | EmptyString => acc
  | String c t => decimal_value_from (10 * acc + (Z.of_N (PyStr.code c) - 48)) t
  end.

Definition decimal_value (s : string) : Z := decimal_value_from 0 s.

(** The parse errors: the errors that [parse_nic_base] raises. *)
Definition parse_error (e : error) : Prop :=
  e = InvalidOldNIC \/ e = InvalidNewNIC \/ e = InvalidLength \/ e = InvalidLiteral.

(** The ordinal of the day that [nic_to_date] is asked for. *)
Definition asked_ordinal (birth_year day_code offset : Z) : Z :=
  toordinal (mkdate birth_year 1 1) + (day_code - offset).

(** The number of days of a year. *)
Definition days_in_year (y : Z) : Z := if is_leap y then 366 else 365.

(** The month and day that [ord2ymd] computes from the offset [n] of a day
    in its year, and the test that they are right. *)
Definition month_day (leapyear : bool) (n : Z) : Z * Z :=
  let m := Z.shiftr (n + 50) 5 in
  let preceding := DAYS_BEFORE_MONTH m + (if (2 <? m) && leapyear then 1 else 0) in
  let '(m, preceding) :=
    if n <? preceding
    then (m - 1,
          preceding - (DAYS_IN_MONTH (m - 1)
                       + (if (m - 1 =? 2) && leapyear then 1 else 0)))
    else (m, preceding) in
  (m, n - preceding + 1).

Definition month_day_ok (leapyear : bool) (n : Z) : bool :=
  let '(m, d) := month_day leapyear n in
  (1 <=? m) && (m <=? 12) && (1 <=? d)
  && (d <=? (if (m =? 2) && leapyear then 29 else DAYS_IN_MONTH m))
  && (DAYS_BEFORE_MONTH m + (if (2 <? m) && leapyear then 1 else 0) + d =? n + 1).

(** ** Tactics *)

Ltac split_tests :=
  repeat match goal with
         | |- context [?x =? ?y] => destruct (Z.eqb_spec x y)
         | |- context [?x <? ?y] => destruct (Z.ltb_spec x y)
         | |- context [?x <=? ?y] => destruct (Z.leb_spec x y)
         end.

Ltac euclid := Z.to_euclidean_division_equations; lia.

Ltac table_values :=
  repeat match goal with
         | |- context [DAYS_IN_MONTH ?k] =>
             let v := eval vm_compute in (DAYS_IN_MONTH k) in
             change (DAYS_IN_MONTH k) with v
         | |- context [DAYS_BEFORE_MONTH ?k] =>
             let v := eval vm_compute in (DAYS_BEFORE_MONTH k) in
             change (DAYS_BEFORE_MONTH k) with v
         end.

Ltac bool_value t :=
  let v := eval vm_compute in t in
  match v with
  | true => change t with true
  | false => change t with false
  end.

Ltac closed_tests :=
  repeat match goal with
         | |- context [?a =? ?b] => bool_value (a =? b)
         | |- context [?a <? ?b] => bool_value (a <? b)
         end;
  cbn [andb orb negb].

Ltac month_cases m :=
  let H := fresh in
  assert (m = 1 \/ m = 2 \/ m = 3 \/ m = 4 \/ m = 5 \/ m = 6 \/ m = 7 \/ m = 8
          \/ m = 9 \/ m = 10 \/ m = 11 \/ m = 12) as H by lia;
  repeat (destruct H as [H | H]; [subst m |]); [.. | subst m].

Ltac each_char c := destruct c as [[] [] [] [] [] [] [] []].

Ltac by_char_facts :=
  unfold PyStr.isdigit; cbn [PyStr.all PyStr.is_empty negb];
  repeat match goal with
         | H : ?p ?c = true |- context [?p ?c] => rewrite H
         end;
  reflexivity.

Ltac outcome :=
  repeat apply conj; intros;
  first [ reflexivity | lia | congruence | tauto
        | match goal with
          | K : Err _ = Err _ |- _ => injection K as <-; auto
          end ].

(** ** The calendar: ordinals and dates *)

Lemma is_leap_decomp a b c e :
  0 <= b <= 3 -> 0 <= c <= 24 -> 0 <= e <= 3 ->
  is_leap (400 * a + 100 * b + 4 * c + e + 1)
  = (e =? 3) && (negb (c =? 24) || (b =? 3)).
Proof.
  intros Hb Hc He. unfold is_leap.
  split_tests; cbn; try reflexivity; exfalso; euclid.
Qed.

Lemma days_before_year_decomp a b c e :
  0 <= b <= 3 -> 0 <= c <= 24 -> 0 <= e <= 3 ->
  days_before_year (400 * a + 100 * b + 4 * c + e + 1)
  = 146097 * a + 36524 * b + 1461 * c + 365 * e.
Proof.
  intros Hb Hc He. unfold days_before_year. euclid.
Qed.

(** The month estimate [(n + 50) >> 5] and its correction, checked on the
    365 offsets of a year, leap or not. *)
Lemma month_day_table :
  forallb (fun k => month_day_ok true (Z.of_nat k) && month_day_ok false (Z.of_nat k))
          (seq 0 365) = true.
Proof. vm_compute. reflexivity. Qed.

Lemma month_day_correct leapyear n :
  0 <= n < 365 -> month_day_ok leapyear n = true.
Proof.
  intros Hn.
  pose proof month_day_table as T. rewrite forallb_forall in T.
  specialize (T (Z.to_nat n)).
  rewrite Z2Nat.id in T by lia.
  assert (In (Z.to_nat n) (seq 0 365)) as HIn by (apply in_seq; lia).
  apply T in HIn. apply andb_true_iff in HIn.
  destruct leapyear; tauto.
Qed.

(** [ord2ymd] returns a month and a day of the calendar, of the ordinal it
    was given. *)
Lemma ord2ymd_month_day n :
  let d := ord2ymd n in
  1 <= month d <= 12 /\
  1 <= day d <= days_in_month (year d) (month d) /\
  toordinal d = n.
Proof.
  unfold ord2ymd, DI400Y, DI100Y, DI4Y. cbv zeta.
  set (n0 := n - 1).
  set (a := n0 / 146097). set (r400 := n0 mod 146097).
  set (b := r400 / 36524). set (r100 := r400 mod 36524).
  set (c := r100 / 1461). set (r4 := r100 mod 1461).
  set (e := r4 / 365). set (r1 := r4 mod 365).
  assert (n0 = 146097 * a + r400 /\ 0 <= r400 < 146097) as [E400 B400]
      by (subst a r400; euclid).
  assert (r400 = 36524 * b + r100 /\ 0 <= r100 < 36524) as [E100 B100]
      by (subst b r100; euclid).
  assert (r100 = 1461 * c + r4 /\ 0 <= r4 < 1461) as [E4 B4]
      by (subst c r4; euclid).
  assert (r4 = 365 * e + r1 /\ 0 <= r1 < 365) as [E1 B1]
      by (subst e r1; euclid).
  clearbody a r400 b r100 c r4 e r1.
  destruct ((e =? 4) || (b =? 4)) eqn:Hend.
  - cbn [year month day]. unfold toordinal, ymd2ord, days_in_month, days_before_month.
    cbn [year month day]. 
    change (DAYS_BEFORE_MONTH 12) with 334. change (DAYS_IN_MONTH 12) with 31.
    change (12 =? 2) with false. change (2 <? 12) with true. cbn [andb].
    apply orb_true_iff in Hend.
    assert (is_leap (a * 400 + 1 + (b * 100 + c * 4 + e) - 1) = true) as ->.
    { unfold is_leap. destruct Hend as [H|H]; apply Z.eqb_eq in H;
        split_tests; cbn; try reflexivity; exfalso; euclid. }
    split; [lia|]. split; [lia|].
    unfold days_before_year.
    destruct Hend as [H|H]; apply Z.eqb_eq in H; euclid.
  - apply orb_false_iff in Hend. destruct Hend as [He Hb].
    apply Z.eqb_neq in He, Hb.
    assert (0 <= b <= 3) as Bb by lia.
    assert (0 <= c <= 24) as Bc by lia.
    assert (0 <= e <= 3) as Be by lia.
    set (leapyear := (e =? 3) && (negb (c =? 24) || (b =? 3))).
    pose proof (month_day_correct leapyear r1 B1) as M.
    unfold month_day_ok, month_day in M. cbv zeta in M.
    set (m0 := Z.shiftr (r1 + 50) 5) in *.
    set (p0 := DAYS_BEFORE_MONTH m0 + (if (2 <? m0) && leapyear then 1 else 0)) in *.
    destruct (if r1 <? p0 then _ else _) as [m p] eqn:Hmp.
    cbn [year month day].
    replace (a * 400 + 1 + (b * 100 + c * 4 + e))
      with (400 * a + 100 * b + 4 * c + e + 1) by lia.
    unfold toordinal, ymd2ord, days_in_month, days_before_month. cbn [year month day].
    rewrite is_leap_decomp by assumption. fold leapyear.
    rewrite days_before_year_decomp by assumption.
    repeat (apply andb_true_iff in M; destruct M as [M ?]).
    repeat match goal with
           | H : (_ <=? _) = true |- _ => apply Z.leb_le in H
           | H : (_ =? _) = true |- _ => apply Z.eqb_eq in H
           end.
    lia.
Qed.

Lemma days_before_year_succ y :
  days_before_year (y + 1) = days_before_year y + 365 + (if is_leap y then 1 else 0).
Proof.
  unfold days_before_year, is_leap.
  replace (y + 1 - 1) with y by lia.
  split_tests; cbn; euclid.
Qed.

Lemma days_before_year_mono y1 y2 :
  y1 <= y2 -> days_before_year y1 <= days_before_year y2.
Proof. intros H. unfold days_before_year. euclid. Qed.

Lemma day_of_year_bounds y m d :
  1 <= m <= 12 -> 1 <= d <= days_in_month y m ->
  1 <= days_before_month y m + d <= 365 + (if is_leap y then 1 else 0).
Proof.
  intros Hm. unfold days_in_month, days_before_month.
  month_cases m; table_values; closed_tests; destruct (is_leap y); lia.
Qed.

Lemma day_of_year_inj y m1 d1 m2 d2 :
  1 <= m1 <= 12 -> 1 <= d1 <= days_in_month y m1 ->
  1 <= m2 <= 12 -> 1 <= d2 <= days_in_month y m2 ->
  days_before_month y m1 + d1 = days_before_month y m2 + d2 ->
  m1 = m2 /\ d1 = d2.
Proof.
  intros Hm1 Hd1 Hm2 Hd2. revert Hd1 Hd2.
  unfold days_in_month, days_before_month.
  destruct (is_leap y);
    month_cases m1; month_cases m2; table_values; closed_tests; lia.
Qed.

(** Two dates of the calendar with the same ordinal are the same date. *)
Lemma toordinal_inj d1 d2 :
  calendar_date d1 -> calendar_date d2 -> toordinal d1 = toordinal d2 -> d1 = d2.
Proof.
  destruct d1 as [y1 m1 d1], d2 as [y2 m2 d2].
  unfold calendar_date, toordinal, ymd2ord. cbn [year month day].
  intros [Hm1 Hd1] [Hm2 Hd2] E.
  pose proof (day_of_year_bounds y1 m1 d1 Hm1 Hd1) as B1.
  pose proof (day_of_year_bounds y2 m2 d2 Hm2 Hd2) as B2.
  assert (y1 = y2) as ->.
  { destruct (Z.lt_trichotomy y1 y2) as [L | [L | L]]; [exfalso | exact L | exfalso].
    - pose proof (days_before_year_mono (y1 + 1) y2 ltac:(lia)) as M.
      rewrite days_before_year_succ in M. lia.
    - pose proof (days_before_year_mono (y2 + 1) y1 ltac:(lia)) as M.
      rewrite days_before_year_succ in M. lia. }
  destruct (day_of_year_inj y2 m1 d1 m2 d2 Hm1 Hd1 Hm2 Hd2 ltac:(lia)) as [-> ->].
  reflexivity.
Qed.

Lemma ord2ymd_calendar_date n : calendar_date (ord2ymd n).
Proof. pose proof (ord2ymd_month_day n) as H. cbv zeta in H. split; tauto. Qed.

Lemma toordinal_ord2ymd n : toordinal (ord2ymd n) = n.
Proof. pose proof (ord2ymd_month_day n) as H. cbv zeta in H. tauto. Qed.

Lemma ord2ymd_toordinal d : calendar_date d -> ord2ymd (toordinal d) = d.
Proof.
  intros H. apply toordinal_inj; [apply ord2ymd_calendar_date | exact H |].
  apply toordinal_ord2ymd.
Qed.

Lemma next_day_correct d :
  calendar_date d ->
  calendar_date (next_day d) /\ toordinal (next_day d) = toordinal d + 1.
Proof.
  destruct d as [y m d]. unfold calendar_date, next_day, toordinal, ymd2ord.
  cbn [year month day]. intros [Hm Hd].
  destruct (Z.ltb_spec d (days_in_month y m)).
  - cbn [year month day]. lia.
  - destruct (Z.ltb_spec m 12); cbn [year month day].
    + assert (d = days_in_month y m) as -> by lia. clear Hd H.
      unfold days_in_month, days_before_month.
      month_cases m; try lia; table_values; closed_tests; destruct (is_leap y); lia.
    + assert (m = 12) as -> by lia.
      rewrite days_before_year_succ.
      revert Hd H. unfold days_in_month, days_before_month. table_values. closed_tests.
      destruct (is_leap y), (is_leap (y + 1)); lia.
Qed.

Lemma prev_day_correct d :
  calendar_date d ->
  calendar_date (prev_day d) /\ toordinal (prev_day d) = toordinal d - 1.
Proof.
  destruct d as [y m d]. unfold calendar_date, prev_day, toordinal, ymd2ord.
  cbn [year month day]. intros [Hm Hd].
  destruct (Z.ltb_spec 1 d).
  - cbn [year month day]. lia.
  - assert (d = 1) as -> by lia. clear Hd H.
    destruct (Z.ltb_spec 1 m); cbn [year month day].
    + unfold days_in_month, days_before_month.
      month_cases m; try lia; table_values; closed_tests; destruct (is_leap y); lia.
    + assert (m = 1) as -> by lia.
      replace (days_before_year y) with (days_before_year (y - 1 + 1)) by (f_equal; lia).
      rewrite days_before_year_succ.
      unfold days_in_month, days_before_month. table_values. closed_tests.
      destruct (is_leap y), (is_leap (y - 1)); lia.
Qed.

Lemma iter_next_day k d :
  calendar_date d ->
  calendar_date (Nat.iter k next_day d)
  /\ toordinal (Nat.iter k next_day d) = toordinal d + Z.of_nat k.
Proof.
  intros H. induction k as [| k [IHc IHo]].
  - cbn. split; [exact H | lia].
  - change (Nat.iter (S k) next_day d) with (next_day (Nat.iter k next_day d)).
    destruct (next_day_correct _ IHc) as [C O].
    split; [exact C | lia].
Qed.

Lemma iter_prev_day k d :
  calendar_date d ->
  calendar_date (Nat.iter k prev_day d)
  /\ toordinal (Nat.iter k prev_day d) = toordinal d - Z.of_nat k.
Proof.
  intros H. induction k as [| k [IHc IHo]].
  - cbn. split; [exact H | lia].
  - change (Nat.iter (S k) prev_day d) with (prev_day (Nat.iter k prev_day d)).
    destruct (prev_day_correct _ IHc) as [C O].
    split; [exact C | lia].
Qed.

Lemma plus_days_correct d k :
  calendar_date d ->
  calendar_date (plus_days d k) /\ toordinal (plus_days d k) = toordinal d + k.
Proof.
  intros H. unfold plus_days. destruct (Z.leb_spec 0 k).
  - destruct (iter_next_day (Z.to_nat k) d H) as [C O]. split; [exact C | lia].
  - destruct (iter_prev_day (Z.to_nat (- k)) d H) as [C O]. split; [exact C | lia].
Qed.

(** Adding to the ordinal is moving through the calendar day by day. *)
Lemma ord2ymd_plus d k :
  calendar_date d -> ord2ymd (toordinal d + k) = plus_days d k.
Proof.
  intros H. destruct (plus_days_correct d k H) as [C O].
  rewrite <- O. apply ord2ymd_toordinal. exact C.
Qed.

Lemma ord2ymd_year_range n :
  0 < n <= MAXORDINAL -> MINYEAR <= year (ord2ymd n) <= MAXYEAR.
Proof.
  intros Hn. pose proof (toordinal_ord2ymd n) as O.
  destruct (ord2ymd_calendar_date n) as [Hm Hd].
  destruct (ord2ymd n) as [y m d]. unfold toordinal, ymd2ord in O.
  cbn [year month day] in *.
  pose proof (day_of_year_bounds y m d Hm Hd) as B.
  unfold MINYEAR, MAXYEAR, MAXORDINAL in *.
  assert (days_before_year 10000 = 3652059) as E1 by reflexivity.
  assert (days_before_year 1 = 0) as E0 by reflexivity.
  split.
  - destruct (Z.le_gt_cases 1 y) as [L | L]; [exact L | exfalso].
    pose proof (days_before_year_mono (y + 1) 1 ltac:(lia)) as M.
    rewrite days_before_year_succ in M. destruct (is_leap y); lia.
  - destruct (Z.le_gt_cases y 9999) as [L | L]; [exact L | exfalso].
    pose proof (days_before_year_mono 10000 y ltac:(lia)) as M. lia.
Qed.

(** ** Strings: integer literals, slices and the pattern *)

Lemma digit_value_range c d : PyStr.digit_value c = Some d -> 0 <= d <= 9.
Proof.
  unfold PyStr.digit_value, PyStr.isdecimal, PyStr.between.
  destruct (andb _ _) eqn:E; [| discriminate].
  intros [= <-]. apply andb_true_iff in E. destruct E as [E1 E2].
  apply N.leb_le in E1, E2. lia.
Qed.

Lemma pow10_pos n : 1 <= 10 ^ Z.of_nat n.
Proof. pose proof (Z.pow_pos_nonneg 10 (Z.of_nat n)). lia. Qed.

Lemma pow10_succ n : 10 ^ Z.of_nat (S n) = 10 * 10 ^ Z.of_nat n.
Proof. rewrite Nat2Z.inj_succ. apply Z.pow_succ_r. lia. Qed.

Lemma scan_digits_bound n :
  forall s acc v rest,
    (String.length s <= n)%nat -> 0 <= acc ->
    PyStr.scan_digits acc s = (v, rest) ->
    0 <= v /\ v + 1 <= (acc + 1) * 10 ^ Z.of_nat (String.length s).
Proof.
  induction n as [| n IH]; intros s acc v rest Hlen Hacc Hscan.
  - destruct s; [| cbn in Hlen; lia]. cbn in Hscan. injection Hscan as <- _.
    cbn. lia.
  - destruct s as [| c t].
    { cbn in Hscan. injection Hscan as <- _. cbn. lia. }
    cbn [String.length] in *. rewrite pow10_succ.
    pose proof (pow10_pos (String.length t)) as P.
    cbn [PyStr.scan_digits] in Hscan.
    destruct (PyStr.digit_value c) as [d |] eqn:Ed.
    + apply digit_value_range in Ed.
      apply IH in Hscan; [| lia | lia]. nia.
    + destruct (PyStr.code_is 95 c).
      * destruct t as [| c' t'].
        { injection Hscan as <- _. nia. }
        cbn [String.length] in *. rewrite pow10_succ in *.
        pose proof (pow10_pos (String.length t')) as P'.
        destruct (PyStr.digit_value c') as [d |] eqn:Ed'.
        -- apply digit_value_range in Ed'.
           apply IH in Hscan; [| lia | lia]. nia.
        -- injection Hscan as <- _. nia.
      * injection Hscan as <- _. nia.
Qed.

Lemma skip_space_length s : (String.length (PyStr.skip_space s) <= String.length s)%nat.
Proof.
  induction s as [| c t IH]; cbn; [lia |].
  destruct (PyStr.int_space c); cbn; lia.
Qed.

Lemma split_sign_length s neg body :
  PyStr.split_sign s = (neg, body) -> (String.length body <= String.length s)%nat.
Proof.
  destruct s as [| c t]; cbn.
  - intros [= _ <-]. cbn. lia.
  - destruct (PyStr.code_is 45 c); [intros [= _ <-]; lia |].
    destruct (PyStr.code_is 43 c); intros [= _ <-]; cbn; lia.
Qed.

(** A literal of [n] characters is an integer of at most [n] digits. *)
Lemma int_bound s v :
  PyStr.int s = Some v -> Z.abs v < 10 ^ Z.of_nat (String.length s).
Proof.
  unfold PyStr.int.
  destruct (PyStr.split_sign (PyStr.skip_space s)) as [neg body] eqn:Es.
  apply split_sign_length in Es.
  pose proof (skip_space_length s) as Hs.
  destruct body as [| c t]; [discriminate |].
  destruct (PyStr.digit_value c) as [d |] eqn:Ed; [| discriminate].
  apply digit_value_range in Ed.
  destruct (PyStr.scan_digits d t) as [w rest] eqn:Escan.
  apply (scan_digits_bound (String.length t)) in Escan; [| lia | lia].
  destruct (PyStr.is_empty _); [| discriminate].
  intros [= <-].
  cbn [String.length] in Es.
  assert (10 ^ Z.of_nat (S (String.length t)) <= 10 ^ Z.of_nat (String.length s)) as M
      by (apply Z.pow_le_mono_r; lia).
  rewrite pow10_succ in M.
  pose proof (pow10_pos (String.length t)).
  destruct neg; nia.
Qed.

Lemma substring_length i n s : (String.length (substring i n s) <= n)%nat.
Proof.
  revert i n. induction s as [| c t IH]; intros i n.
  - destruct i, n; cbn; lia.
  - destruct i as [| i].
    + destruct n as [| n]; cbn; [lia |]. specialize (IH 0%nat n). lia.
    + cbn. apply IH.
Qed.

Lemma int_slice_bound i j s v :
  PyStr.int (PyStr.slice i j s) = Some v -> (j - i <= 3)%nat -> -999 <= v <= 999.
Proof.
  intros H L. apply int_bound in H.
  pose proof (substring_length i (j - i) s) as B. unfold PyStr.slice in H.
  assert (10 ^ Z.of_nat (String.length (substring i (j - i) s)) <= 10 ^ 3) as M
      by (apply Z.pow_le_mono_r; lia).
  change (10 ^ 3) with 1000 in M. lia.
Qed.

Lemma length_10_chars s :
  String.length s = 10%nat ->
  exists c0 c1 c2 c3 c4 c5 c6 c7 c8 c9,
    s = String c0 (String c1 (String c2 (String c3 (String c4
        (String c5 (String c6 (String c7 (String c8 (String c9 ""))))))))).
Proof.
  intros H.
  do 10 (destruct s as [| ? s]; [discriminate H |]; cbn in H; injection H as H).
  destruct s; [| discriminate H].
  repeat eexists.
Qed.

Lemma matches_old_shape s :
  String.length s = 10%nat ->
  Re.matches [Re.Repeat Re.Digit 5; Re.Repeat Re.Word 5] s
  = PyStr.all PyStr.isdecimal (PyStr.slice 0 5 s)
    && PyStr.all PyStr.isword (PyStr.slice 5 10 s).
Proof.
  intros H. destruct (length_10_chars s H) as (c0&c1&c2&c3&c4&c5&c6&c7&c8&c9&->).
  unfold Re.matches, PyStr.slice. cbn [Re.run Re.take Re.in_class substring Nat.sub PyStr.all].
  repeat match goal with
         | |- context [if ?b then _ else _] => destruct b; cbn [andb]
         end; reflexivity.
Qed.

(** ** The functions of the module *)

Lemma len_is n s : PyStr.len s = Z.of_nat n <-> String.length s = n.
Proof. unfold PyStr.len. lia. Qed.

Lemma january_first_calendar_date y : calendar_date (mkdate y 1 1).
Proof.
  unfold calendar_date, days_in_month. cbn [year month day].
  table_values. closed_tests. lia.
Qed.

Lemma datetime_january_first y start :
  datetime y 1 1 = Ok start -> MINYEAR <= y <= MAXYEAR /\ start = mkdate y 1 1.
Proof.
  unfold datetime, MINYEAR, MAXYEAR.
  destruct ((y <? INT_MIN) || (INT_MAX <? y)); [discriminate |].
  destruct (Z.ltb_spec y 1); [discriminate |].
  destruct (Z.ltb_spec 9999 y); [discriminate |]. cbn [orb].
  destruct ((1 <? 1) || (12 <? 1)); [discriminate |].
  destruct ((1 <? 1) || (days_in_month y 1 <? 1)); [discriminate |].
  intros [= <-]. split; [lia | reflexivity].
Qed.

Lemma nic_to_date_inv y d off r :
  nic_to_date y d off = Ok r ->
  MINYEAR <= y <= MAXYEAR
  /\ 0 < toordinal (mkdate y 1 1) + (d - off) <= MAXORDINAL
  /\ r = ord2ymd (toordinal (mkdate y 1 1) + (d - off)).
Proof.
  unfold nic_to_date, bind.
  destruct (datetime y 1 1) as [start | e] eqn:Es; [| discriminate].
  apply datetime_january_first in Es. destruct Es as [Hy ->].
  unfold add_days.
  destruct (MAX_DELTA_DAYS <? Z.abs (d - off)); [discriminate |].
  destruct (Z.ltb_spec 0 (toordinal (mkdate y 1 1) + (d - off))); [| discriminate].
  destruct (Z.leb_spec (toordinal (mkdate y 1 1) + (d - off)) MAXORDINAL);
    [| discriminate].
  cbn [andb]. intros [= <-]. repeat split; lia.
Qed.

Lemma nic_to_date_no_day_code_error y d off :
  nic_to_date y d off <> Err DayCodeOutOfRange.
Proof.
  unfold nic_to_date, bind, datetime.
  repeat match goal with
         | |- context [if ?b then _ else _] => destruct b
         end;
    try discriminate.
  destruct (add_days _ _); discriminate.
Qed.

Lemma gender_and_day_code_cases raw :
  (500 < raw /\ gender_and_day_code raw = (FEMALE, raw - 500))
  \/ (raw <= 500 /\ gender_and_day_code raw = (MALE, raw)).
Proof.
  unfold gender_and_day_code. destruct (Z.ltb_spec 500 raw); [left | right]; auto.
Qed.

Lemma decode_nic_inv nic offset r :
  decode_nic nic offset = Ok r ->
  exists k y raw,
    parse_nic_base nic = Ok (k, y, raw)
    /\ nic_type r = k /\ birth_year r = y /\ raw_day_code r = raw
    /\ (gender r, day_code r) = gender_and_day_code raw
    /\ 0 <= day_code r <= 366 + offset + 5
    /\ nic_to_date y (day_code r) offset = Ok (birth_date r).
Proof.
  unfold decode_nic, bind.
  destruct (parse_nic_base nic) as [[[k y] raw] | e]; [| discriminate].
  destruct (gender_and_day_code raw) as [g dc] eqn:Eg.
  destruct (Z.ltb_spec dc 0); [discriminate |].
  destruct (Z.ltb_spec (366 + offset + 5) dc); [discriminate |]. cbn [orb].
  destruct (nic_to_date y dc offset) as [bd | e] eqn:Ed; [| discriminate].
  intros [= <-]. exists k, y, raw.
  cbn [nic_type gender birth_year raw_day_code day_code birth_date].
  repeat apply conj; first [reflexivity | lia | exact Ed | symmetry; exact Eg].
Qed.

Lemma parse_nic_base_raw_bound nic k y raw :
  parse_nic_base nic = Ok (k, y, raw) -> -999 <= raw <= 999.
Proof.
  unfold parse_nic_base, bind, int_or.
  destruct (PyStr.len _ =? 10).
  - destruct (PyStr.int (PyStr.slice 0 2 _)); [| discriminate].
    destruct (PyStr.int (PyStr.slice 2 5 _)) eqn:E; [| discriminate].
    intros [= _ _ <-]. apply int_slice_bound in E; [lia | cbn; lia].
  - destruct (PyStr.len _ =? 12); [| discriminate].
    destruct (negb _); [discriminate |].
    destruct (PyStr.int (PyStr.slice 0 4 _)); [| discriminate].
    destruct (PyStr.int (PyStr.slice 4 7 _)) eqn:E; [| discriminate].
    intros [= _ _ <-]. apply int_slice_bound in E; [lia | cbn; lia].
Qed.

(** ** The embedding on known values *)

Example int_literals :
  PyStr.int "007" = Some 7 /\ PyStr.int " +5" = Some 5 /\ PyStr.int "-45" = Some (-45)
  /\ PyStr.int "1_2" = Some 12 /\ PyStr.int " 4 " = Some 4
  /\ PyStr.int "+ 5" = None /\ PyStr.int "12_" = None /\ PyStr.int "1__2" = None
  /\ PyStr.int "_12" = None /\ PyStr.int "0x1" = None /\ PyStr.int "" = None.
Proof. repeat split. Qed.

Example strip_removes_both_ends :
  PyStr.strip "  912680444V  " = "912680444V" /\ PyStr.strip " a b " = "a b".
Proof. split; reflexivity. Qed.

Example ordinals_of_the_range :
  ord2ymd 1 = mkdate 1 1 1 /\ ord2ymd MAXORDINAL = mkdate 9999 12 31
  /\ toordinal (mkdate 2000 2 29) = 730179.
Proof. repeat split. Qed.

Example decode_nic_old_example :
  decode_nic "912680444V" DEFAULT_NIC_DAY_OFFSET
  = Ok (mkNICInfo OLD MALE 1991 268 268 (mkdate 1991 9 24)).
Proof. reflexivity. Qed.

Example decode_nic_invalid_example :
  is_valid_nic "invalid123" = false
  /\ decode_nic "invalid123" DEFAULT_NIC_DAY_OFFSET = Err InvalidOldNIC.
Proof. split; reflexivity. Qed.

(** ** Examples of the specification *)

(** C1. On the string 199253600001 and the default offset, [decode_nic]
    returns a record with the new format, the birth year 1992, the raw day
    code 536, the gender female and the day code 36, as the specification
    says; its birth date is 1 January 1992 plus 36 - 2 = 34 days, which is
    4 February 1992, the day before the 5 February that the specification
    and the demonstration script give for this input. *)
Theorem decode_nic_new_example :
  decode_nic "199253600001" DEFAULT_NIC_DAY_OFFSET
  = Ok (mkNICInfo NEW FEMALE 1992 536 36 (mkdate 1992 2 4))
  /\ next_day (mkdate 1992 2 4) = mkdate 1992 2 5.
Proof. split; reflexivity. Qed.

(** On the string 1234567890 and the default offset [decode_nic] raises
    nothing. *)
Lemma default_offset_decodes_1234567890 :
  ~ (exists e, decode_nic "1234567890" DEFAULT_NIC_DAY_OFFSET = Err e).
Proof. intros [e H]. vm_compute in H. discriminate H. Qed.

Lemma parse_nic_base_1234567890 :
  parse_nic_base "1234567890" = Ok (OLD, 2012, 345).
Proof. reflexivity. Qed.

(** C2 (the code at the input of the claim).  The demonstration script
    calls the string 1234567890 a valid format with an invalid date, and
    the specification says that decoding it fails with a range or date
    error.  The code decodes it: it reads an old-format NIC of the year
    2012 with the day code 345 of a male holder, and with the default
    offset it returns the record with the birth date 9 December 2012.
    Over all offsets, the day-code range error is raised exactly for the
    offsets below -26, the date error exactly for the offsets from 734848
    on (the date would fall before year 1), and every offset in between
    gives a record. *)
Theorem decode_nic_1234567890 (offset : Z) :
  decode_nic "1234567890" DEFAULT_NIC_DAY_OFFSET
  = Ok (mkNICInfo OLD MALE 2012 345 345 (mkdate 2012 12 9))
  /\ (decode_nic "1234567890" offset = Err DayCodeOutOfRange <-> offset < -26)
  /\ (decode_nic "1234567890" offset = Err DateOutOfRange <-> 734848 <= offset)
  /\ (decode_nic "1234567890" offset
      = Ok (mkNICInfo OLD MALE 2012 345 345
              (plus_days (mkdate 2012 1 1) (345 - offset)))
      <-> -26 <= offset < 734848).
Proof.
  split; [reflexivity |].
  unfold decode_nic. rewrite parse_nic_base_1234567890.
  cbn [bind]. change (gender_and_day_code 345) with (MALE, 345).
  cbv iota beta. change (345 <? 0) with false. cbn [orb].
  destruct (Z.ltb_spec (366 + offset + 5) 345) as [Hlow | Hlow].
  - repeat split; intros; first [lia | reflexivity | congruence].
  - unfold nic_to_date. change (datetime 2012 1 1) with (Ok (mkdate 2012 1 1)).
    cbn [bind]. rewrite <- ord2ymd_plus by apply january_first_calendar_date.
    unfold add_days.
    change (toordinal (mkdate 2012 1 1)) with 734503.
    unfold MAX_DELTA_DAYS, MAXORDINAL.
    destruct (Z.ltb_spec 999999999 (Z.abs (345 - offset))).
    + cbn [bind]. repeat split; intros; first [lia | reflexivity | congruence].
    + destruct (Z.ltb_spec 0 (734503 + (345 - offset)));
        destruct (Z.leb_spec (734503 + (345 - offset)) 3652059); cbn [andb bind];
        repeat split; intros; first [lia | reflexivity | congruence].
Qed.

(** ** The date resolver *)

Lemma nic_to_date_ordinal y d off r :
  nic_to_date y d off = Ok r ->
  toordinal r = toordinal (mkdate y 1 1) + (d - off).
Proof.
  intros H. apply nic_to_date_inv in H. destruct H as (_ & _ & ->).
  apply toordinal_ord2ymd.
Qed.

(** [nic_to_date] returns a date exactly when the year is one of 1..9999
    and the day asked for is one of the days of those years. *)
Lemma nic_to_date_succeeds y d off :
  MINYEAR <= y <= MAXYEAR ->
  0 < toordinal (mkdate y 1 1) + (d - off) <= MAXORDINAL ->
  nic_to_date y d off = Ok (ord2ymd (toordinal (mkdate y 1 1) + (d - off))).
Proof.
  unfold MINYEAR, MAXYEAR, MAXORDINAL. intros Hy Ho.
  assert (0 <= days_before_year y <= 3652059) as B.
  { pose proof (days_before_year_mono 1 y ltac:(lia)) as M1.
    pose proof (days_before_year_mono y 10000 ltac:(lia)) as M2.
    change (days_before_year 1) with 0 in M1.
    change (days_before_year 10000) with 3652059 in M2. lia. }
  unfold nic_to_date, datetime, INT_MIN, INT_MAX, MINYEAR, MAXYEAR.
  destruct (Z.ltb_spec y (- 2 ^ 31)); [lia |].
  destruct (Z.ltb_spec (2 ^ 31 - 1) y); [lia |].
  destruct (Z.ltb_spec y 1); [lia |].
  destruct (Z.ltb_spec 9999 y); [lia |].
  cbn [orb]. change ((1 <? 1) || (12 <? 1)) with false.
  change (days_in_month y 1) with 31. change ((1 <? 1) || (31 <? 1)) with false.
  cbn [bind]. unfold add_days, MAX_DELTA_DAYS, MAXORDINAL.
  revert Ho. unfold toordinal, ymd2ord. cbn [year month day].
  change (days_before_month y 1) with 0. intros Ho.
  destruct (Z.ltb_spec 999999999 (Z.abs (d - off))); [lia |].
  destruct (Z.ltb_spec 0 (days_before_year y + 0 + 1 + (d - off))); [| lia].
  destruct (Z.leb_spec (days_before_year y + 0 + 1 + (d - off)) 3652059); [| lia].
  reflexivity.
Qed.

(** C3, as stated, fails: for the year 1991 and the day code 268 both
    calls return a date, and the date for the offset 0 is not the one two
    days before the date for the offset 2. *)
Lemma offset_zero_is_not_earlier :
  ~ (forall birth_year day_code r0 r2,
        nic_to_date birth_year day_code 0 = Ok r0 ->
        nic_to_date birth_year day_code 2 = Ok r2 ->
        toordinal r0 = toordinal r2 - 2).
Proof.
  intros H.
  specialize (H 1991 268 (mkdate 1991 9 26) (mkdate 1991 9 24) eq_refl eq_refl).
  vm_compute in H. discriminate H.
Qed.

(** C3, amended. For every birth year and day code on which both calls
    return a date, the date for the offset 0 is exactly two days later
    than the date for the offset 2; and when [decode_nic] returns a record
    for both offsets on the same string, the two records differ only in
    the birth date, which for the offset 0 is exactly two days later. *)
Theorem offset_zero_is_two_days_later :
  (forall birth_year day_code r0 r2,
      nic_to_date birth_year day_code 0 = Ok r0 ->
      nic_to_date birth_year day_code 2 = Ok r2 ->
      toordinal r0 = toordinal r2 + 2 /\ r0 = plus_days r2 2)
  /\ (forall nic i0 i2,
         decode_nic nic 0 = Ok i0 ->
         decode_nic nic 2 = Ok i2 ->
         toordinal (birth_date i0) = toordinal (birth_date i2) + 2
         /\ birth_date i0 = plus_days (birth_date i2) 2
         /\ nic_type i0 = nic_type i2 /\ gender i0 = gender i2
         /\ birth_year i0 = birth_year i2
         /\ raw_day_code i0 = raw_day_code i2 /\ day_code i0 = day_code i2).
Proof.
  assert (forall y d r0 r2,
             nic_to_date y d 0 = Ok r0 -> nic_to_date y d 2 = Ok r2 ->
             toordinal r0 = toordinal r2 + 2 /\ r0 = plus_days r2 2) as Hdate.
  { intros y d r0 r2 H0 H2.
    pose proof (nic_to_date_ordinal _ _ _ _ H0) as O0.
    pose proof (nic_to_date_ordinal _ _ _ _ H2) as O2.
    apply nic_to_date_inv in H0, H2.
    destruct H0 as (_ & _ & E0), H2 as (_ & _ & E2).
    split; [lia |].
    assert (calendar_date r2) as C2 by (rewrite E2; apply ord2ymd_calendar_date).
    rewrite <- (ord2ymd_plus r2 2 C2), O2, E0. f_equal. lia. }
  split; [exact Hdate |].
  intros nic i0 i2 H0 H2.
  apply decode_nic_inv in H0, H2.
  destruct H0 as (k & y & raw & P0 & T0 & Y0 & R0 & G0 & _ & D0).
  destruct H2 as (k' & y' & raw' & P2 & T2 & Y2 & R2 & G2 & _ & D2).
  rewrite P0 in P2. injection P2 as <- <- <-.
  rewrite <- G0 in G2. injection G2 as Eg Ed.
  rewrite Ed in D2.
  destruct (Hdate _ _ _ _ D0 D2) as [O S].
  repeat apply conj; congruence.
Qed.

Lemma offset_zero_is_two_days_later_witness :
  nic_to_date 1991 268 0 = Ok (mkdate 1991 9 26)
  /\ nic_to_date 1991 268 2 = Ok (mkdate 1991 9 24)
  /\ toordinal (mkdate 1991 9 26) = toordinal (mkdate 1991 9 24) + 2
  /\ mkdate 1991 9 26 = plus_days (mkdate 1991 9 24) 2.
Proof.
  split; [reflexivity |]. split; [reflexivity |].
  exact (proj1 offset_zero_is_two_days_later 1991 268
           (mkdate 1991 9 26) (mkdate 1991 9 24) eq_refl eq_refl).
Defined.

(** C4. Whenever [nic_to_date] returns a date for a birth year, a day
    code and an offset, that date is 1 January of the birth year plus
    [day_code - offset] days, counted one calendar day at a time, forwards
    or, when the difference is negative, backwards; it is a date of the
    calendar in the years 1..9999, and its ordinal is that of 1 January
    plus the difference. *)
Theorem nic_to_date_is_january_first_plus_days birth_year day_code offset r :
  nic_to_date birth_year day_code offset = Ok r ->
  r = plus_days (mkdate birth_year 1 1) (day_code - offset)
  /\ valid_date r
  /\ toordinal r = toordinal (mkdate birth_year 1 1) + (day_code - offset).
Proof.
  intros H. pose proof (nic_to_date_ordinal _ _ _ _ H) as O.
  apply nic_to_date_inv in H. destruct H as (Hy & Ho & E).
  split; [| split; [| exact O]].
  - rewrite E. apply ord2ymd_plus, january_first_calendar_date.
  - rewrite E. destruct (ord2ymd_calendar_date
                           (toordinal (mkdate birth_year 1 1) + (day_code - offset)))
      as [Cm Cd].
    split; [apply ord2ymd_year_range; exact Ho | split; assumption].
Qed.

Lemma nic_to_date_is_january_first_plus_days_witness :
  nic_to_date 1992 36 2 = Ok (mkdate 1992 2 4)
  /\ mkdate 1992 2 4 = plus_days (mkdate 1992 1 1) (36 - 2)
  /\ valid_date (mkdate 1992 2 4)
  /\ toordinal (mkdate 1992 2 4) = toordinal (mkdate 1992 1 1) + (36 - 2).
Proof.
  split; [reflexivity |].
  apply (nic_to_date_is_january_first_plus_days 1992 36 2). reflexivity.
Defined.

(** ** The validator *)

Lemma is_valid_nic_word_shape nic :
  is_valid_nic nic = true <-> word_shape (PyStr.strip nic).
Proof.
  unfold is_valid_nic, word_shape. set (t := PyStr.strip nic).
  destruct (Z.eqb_spec (PyStr.len t) 10) as [E10 | N10].
  - rewrite matches_old_shape by (apply (len_is 10); exact E10).
    rewrite andb_true_iff. split.
    + intros [H1 H2]. left. auto.
    + intros [(_ & H1 & H2) | (E12 & _)]; [auto | lia].
  - destruct (Z.eqb_spec (PyStr.len t) 12) as [E12 | N12].
    + unfold PyStr.isdigit.
      assert (PyStr.is_empty t = false) as ->.
      { destruct t; [discriminate E12 | reflexivity]. }
      cbn [negb andb]. split.
      * intros H. right. auto.
      * intros [(E10 & _) | (_ & H)]; [lia | exact H].
    + split; [discriminate |]. intros [(E10 & _) | (E12 & _)]; lia.
Qed.

(** C6, as stated, fails: after five digits, five underscores are accepted,
    and an underscore is not alphanumeric. *)
Lemma is_valid_nic_accepts_underscores :
  ~ (forall nic, is_valid_nic nic = true <-> alphanumeric_shape (PyStr.strip nic)).
Proof.
  intros H. destruct (H "12345_____") as [H1 _].
  destruct (H1 eq_refl) as [(_ & _ & A) | (L & _)].
  - vm_compute in A. discriminate A.
  - vm_compute in L. discriminate L.
Qed.

(** C6, amended. [is_valid_nic] is a total boolean function.  After the
    surrounding whitespace is removed, it returns true exactly when either
    the string has length 10, its first five characters are decimal digits
    and its last five are word characters, that is alphanumeric characters
    or underscores, or the string has length 12 and each character is a
    digit in the sense of [str.isdigit].  For every other length or shape
    it returns false. *)
Theorem is_valid_nic_shape (nic : string) :
  (is_valid_nic nic = true <-> word_shape (PyStr.strip nic))
  /\ (is_valid_nic nic = false <-> ~ word_shape (PyStr.strip nic))
  /\ (forall c, PyStr.isword c = PyStr.isalnum c || PyStr.code_is 95 c).
Proof.
  pose proof (is_valid_nic_word_shape nic) as H.
  split; [exact H |]. split; [| reflexivity].
  destruct (is_valid_nic nic); split.
  - discriminate.
  - intros N. exfalso. apply N, H. reflexivity.
  - intros _ W. apply H in W. discriminate W.
  - reflexivity.
Qed.

(** ** The base parser *)

Lemma parse_nic_base_old nic :
  PyStr.len (PyStr.strip nic) = 10 ->
  parse_nic_base nic
  = (year_part <- int_or InvalidOldNIC (PyStr.slice 0 2 (PyStr.strip nic)) ;;
     raw_day_code <- int_or InvalidOldNIC (PyStr.slice 2 5 (PyStr.strip nic)) ;;
     Ok (OLD, century_year year_part, raw_day_code)).
Proof. intros H. unfold parse_nic_base. rewrite H. reflexivity. Qed.

(** C8. For a string that has length 10 once stripped and whose first
    two characters parse to [s], every result of [parse_nic_base] has the
    old format and the birth year [2000 + s] when [0 <= s <= 25], and
    [1900 + s] otherwise; the parser returns such a result exactly when
    the three characters of the day code parse as well.  The first two
    characters 25 give the year 2025 and 26 give 1926. *)
Theorem old_format_year_resolution nic s :
  PyStr.len (PyStr.strip nic) = 10 ->
  PyStr.int (PyStr.slice 0 2 (PyStr.strip nic)) = Some s ->
  (forall k y raw, parse_nic_base nic = Ok (k, y, raw) ->
                   k = OLD /\ y = century_year s)
  /\ (forall raw, PyStr.int (PyStr.slice 2 5 (PyStr.strip nic)) = Some raw <->
                  parse_nic_base nic = Ok (OLD, century_year s, raw))
  /\ (0 <= s <= 25 -> century_year s = 2000 + s)
  /\ (~ 0 <= s <= 25 -> century_year s = 1900 + s)
  /\ (PyStr.slice 0 2 (PyStr.strip nic) = "25" -> s = 25 /\ century_year s = 2025)
  /\ (PyStr.slice 0 2 (PyStr.strip nic) = "26" -> s = 26 /\ century_year s = 1926).
Proof.
  intros L Hs. rewrite (parse_nic_base_old nic L). unfold int_or. rewrite Hs.
  cbn [bind].
  split; [| split; [| split; [| split; [| split]]]].
  - intros k y raw.
    destruct (PyStr.int (PyStr.slice 2 5 _)); cbn [bind]; [| discriminate].
    intros [= <- <- _]. auto.
  - intros raw.
    destruct (PyStr.int (PyStr.slice 2 5 _)); cbn [bind]; split;
      congruence.
  - intros B. unfold century_year.
    destruct (Z.leb_spec 0 s); destruct (Z.leb_spec s 25); cbn [andb]; lia.
  - intros B. unfold century_year.
    destruct (Z.leb_spec 0 s); destruct (Z.leb_spec s 25); cbn [andb]; lia.
  - intros E. rewrite E in Hs. injection Hs as <-. split; reflexivity.
  - intros E. rewrite E in Hs. injection Hs as <-. split; reflexivity.
Qed.

Lemma old_format_year_resolution_witness :
  PyStr.len (PyStr.strip "250010000V") = 10
  /\ PyStr.int (PyStr.slice 0 2 (PyStr.strip "250010000V")) = Some 25
  /\ parse_nic_base "250010000V" = Ok (OLD, 2025, 1).
Proof.
  split; [reflexivity |]. split; [reflexivity |].
  apply (proj1 (proj2 (old_format_year_resolution "250010000V" 25 eq_refl eq_refl))).
  reflexivity.
Defined.

(** ** The decoder *)

(** C5. When [parse_nic_base] returns the raw day code [raw], [decode_nic]
    raises the day-code range error exactly when the adjusted day code is
    below 0 or above [366 + offset + 5]; for an adjusted day code inside
    that interval it raises no day-code range error. *)
Theorem day_code_range_error nic offset k y raw :
  parse_nic_base nic = Ok (k, y, raw) ->
  decode_nic nic offset = Err DayCodeOutOfRange
  <-> ~ 0 <= snd (gender_and_day_code raw) <= 366 + offset + 5.
Proof.
  intros P. unfold decode_nic. rewrite P. cbn [bind].
  destruct (gender_and_day_code raw) as [g dc]. cbn [snd].
  destruct (Z.ltb_spec dc 0); [cbn [orb]; split; [lia | reflexivity] |].
  destruct (Z.ltb_spec (366 + offset + 5) dc); cbn [orb];
    [split; [lia | reflexivity] |].
  split; [| lia]. intros Hd. exfalso.
  pose proof (nic_to_date_no_day_code_error y dc offset) as N.
  destruct (nic_to_date y dc offset); cbn [bind] in Hd; congruence.
Qed.

Lemma day_code_range_error_witness :
  parse_nic_base "915000000V" = Ok (OLD, 1991, 500)
  /\ (decode_nic "915000000V" 2 = Err DayCodeOutOfRange
      <-> ~ 0 <= snd (gender_and_day_code 500) <= 366 + 2 + 5).
Proof.
  split; [reflexivity |].
  apply (day_code_range_error "915000000V" 2 OLD 1991 500). reflexivity.
Defined.

Section Decoded.

Variables (nic : string) (offset : Z) (info : NICInfo).
Hypothesis decoded : decode_nic nic offset = Ok info.

Lemma decoded_gender :
  (500 < raw_day_code info /\ gender info = FEMALE
   /\ day_code info = raw_day_code info - 500)
  \/ (raw_day_code info <= 500 /\ gender info = MALE
      /\ day_code info = raw_day_code info).
Proof.
  destruct (decode_nic_inv _ _ _ decoded) as (k & y & raw & _ & _ & _ & R & G & _).
  rewrite R. destruct (gender_and_day_code_cases raw) as [[H E] | [H E]];
    rewrite E in G; injection G as -> ->; auto.
Qed.

Lemma decoded_raw_day_code : -999 <= raw_day_code info <= 999.
Proof.
  destruct (decode_nic_inv _ _ _ decoded) as (k & y & raw & P & _ & _ & R & _).
  rewrite R. exact (parse_nic_base_raw_bound _ _ _ _ P).
Qed.

Lemma decoded_day_code : 0 <= day_code info <= 366 + offset + 5.
Proof.
  destruct (decode_nic_inv _ _ _ decoded) as (k & y & raw & _ & _ & _ & _ & _ & B & _).
  exact B.
Qed.

(** C7. In every record that [decode_nic] returns, the gender is female
    if and only if the raw day code is above 500; the day code is the
    raw day code minus 500 for a female holder and the raw day code
    itself for a male holder, and there is no third gender. *)
Theorem gender_invariant :
  (gender info = FEMALE <-> 500 < raw_day_code info)
  /\ (gender info = FEMALE -> day_code info = raw_day_code info - 500)
  /\ (gender info = MALE -> day_code info = raw_day_code info)
  /\ (gender info = FEMALE \/ gender info = MALE).
Proof.
  destruct decoded_gender as [(H & G & D) | (H & G & D)]; rewrite G.
  - repeat split; auto; discriminate.
  - repeat split; auto; try discriminate; lia.
Qed.

(** C9, amended. In every record that [decode_nic] returns, the raw
    day code lies in 0..999 and the day code in 0..500, and the day code
    is at most [366 + offset + 5].  The day code 500 is that of the raw
    day code 500, which is not above 500 and so is read as the day code
    of a male holder; it passes the range check for the offsets from 129
    on. *)
Theorem day_code_ranges :
  0 <= raw_day_code info <= 999
  /\ 0 <= day_code info <= 500
  /\ day_code info <= 366 + offset + 5
  /\ (day_code info = 500 ->
      raw_day_code info = 500 /\ gender info = MALE /\ 129 <= offset).
Proof.
  pose proof decoded_raw_day_code as R. pose proof decoded_day_code as D.
  destruct decoded_gender as [(H & G & E) | (H & G & E)];
    repeat split; first [lia | exact G].
Qed.

End Decoded.

Lemma gender_invariant_witness :
  decode_nic "199253600001" 2
  = Ok (mkNICInfo NEW FEMALE 1992 536 36 (mkdate 1992 2 4))
  /\ (FEMALE = FEMALE <-> 500 < 536).
Proof.
  split; [reflexivity |].
  exact (proj1 (gender_invariant "199253600001" 2
                  (mkNICInfo NEW FEMALE 1992 536 36 (mkdate 1992 2 4)) eq_refl)).
Defined.

(** C9, as stated, fails: with the offset 129 the string 915000000V
    decodes to a record whose day code is 500. *)
Lemma day_code_can_be_500 :
  ~ (forall nic offset info,
        decode_nic nic offset = Ok info ->
        0 <= raw_day_code info <= 999 /\ 0 <= day_code info <= 499).
Proof.
  intros H.
  specialize (H "915000000V" 129
                (mkNICInfo OLD MALE 1991 500 500 (mkdate 1992 1 7)) eq_refl).
  cbn [day_code] in H. lia.
Qed.

Lemma day_code_ranges_witness :
  decode_nic "915000000V" 129
  = Ok (mkNICInfo OLD MALE 1991 500 500 (mkdate 1992 1 7))
  /\ 0 <= 500 <= 999 /\ 0 <= 500 <= 500.
Proof.
  split; [reflexivity |].
  pose proof (day_code_ranges "915000000V" 129
                (mkNICInfo OLD MALE 1991 500 500 (mkdate 1992 1 7)) eq_refl) as H.
  cbn [raw_day_code day_code] in H.
  exact (conj (proj1 H) (proj1 (proj2 H))).
Defined.

(** ** Validity is not needed to decode *)

Lemma parse_nic_base_first_five nic1 nic2 :
  PyStr.len (PyStr.strip nic1) = 10 ->
  PyStr.len (PyStr.strip nic2) = 10 ->
  PyStr.slice 0 5 (PyStr.strip nic1) = PyStr.slice 0 5 (PyStr.strip nic2) ->
  parse_nic_base nic1 = parse_nic_base nic2.
Proof.
  intros L1 L2 E.
  rewrite (parse_nic_base_old nic1 L1), (parse_nic_base_old nic2 L2).
  apply (len_is 10) in L1, L2.
  destruct (length_10_chars _ L1) as (a0&a1&a2&a3&a4&a5&a6&a7&a8&a9&E1).
  destruct (length_10_chars _ L2) as (b0&b1&b2&b3&b4&b5&b6&b7&b8&b9&E2).
  rewrite E1, E2 in *. cbn in E. injection E as -> -> -> -> ->.
  reflexivity.
Qed.

(** C10. There is a string that [is_valid_nic] rejects and that
    [decode_nic] decodes all the same: 91268 followed by five exclamation
    marks has length 10 and begins with five digits, its last five
    characters are not word characters, and it decodes to the record of
    a male holder born on 24 September 1991.  The reason is general: for
    two strings of stripped length 10 that agree on their first five
    characters [parse_nic_base] returns the same, whatever the last five
    characters are. *)
Theorem decode_does_not_need_validity :
  (exists nic info,
      is_valid_nic nic = false
      /\ PyStr.len (PyStr.strip nic) = 10
      /\ PyStr.all PyStr.isdecimal (PyStr.slice 0 5 nic) = true
      /\ PyStr.all PyStr.isalnum (PyStr.slice 5 10 nic) = false
      /\ decode_nic nic DEFAULT_NIC_DAY_OFFSET = Ok info)
  /\ (forall nic1 nic2,
         PyStr.len (PyStr.strip nic1) = 10 ->
         PyStr.len (PyStr.strip nic2) = 10 ->
         PyStr.slice 0 5 (PyStr.strip nic1) = PyStr.slice 0 5 (PyStr.strip nic2) ->
         parse_nic_base nic1 = parse_nic_base nic2).
Proof.
  split; [| exact parse_nic_base_first_five].
  exists "91268!!!!!", (mkNICInfo OLD MALE 1991 268 268 (mkdate 1991 9 24)).
  repeat split.
Qed.

Lemma decode_does_not_need_validity_witness :
  parse_nic_base "91268!!!!!" = parse_nic_base "912680444V".
Proof.
  apply (proj2 decode_does_not_need_validity); reflexivity.
Defined.

(** ** Whitespace, characters and decimal strings *)

Lemma lstrip_all_space a : PyStr.all PyStr.isspace a = true -> PyStr.lstrip a = "".
Proof.
  induction a as [| c t IH]; cbn; [reflexivity |].
  intros H. apply andb_true_iff in H. destruct H as [Hc Ht]. rewrite Hc. auto.
Qed.

Lemma rstrip_all_space b : PyStr.all PyStr.isspace b = true -> PyStr.rstrip b = "".
Proof.
  induction b as [| c t IH]; cbn; [reflexivity |].
  intros H. apply andb_true_iff in H. destruct H as [Hc Ht].
  rewrite (IH Ht), Hc. reflexivity.
Qed.

Lemma lstrip_app_space a s :
  PyStr.all PyStr.isspace a = true -> PyStr.lstrip (a ++ s) = PyStr.lstrip s.
Proof.
  induction a as [| c t IH]; cbn; [reflexivity |].
  intros H. apply andb_true_iff in H. destruct H as [Hc Ht]. rewrite Hc. auto.
Qed.

Lemma rstrip_app_space s b :
  PyStr.all PyStr.isspace b = true -> PyStr.rstrip (s ++ b) = PyStr.rstrip s.
Proof.
  intros H. induction s as [| c t IH]; cbn.
  - apply rstrip_all_space, H.
  - rewrite IH. reflexivity.
Qed.

Lemma strip_app_space_r s b :
  PyStr.all PyStr.isspace b = true -> PyStr.strip (s ++ b) = PyStr.strip s.
Proof.
  intros H. unfold PyStr.strip. induction s as [| c t IH].
  - cbn. rewrite (lstrip_all_space b H). reflexivity.
  - cbn [append PyStr.lstrip]. destruct (PyStr.isspace c); [exact IH |].
    change (String c (t ++ b)) with (String c t ++ b).
    apply rstrip_app_space, H.
Qed.

Lemma strip_padded a s b :
  PyStr.all PyStr.isspace a = true -> PyStr.all PyStr.isspace b = true ->
  PyStr.strip (a ++ s ++ b) = PyStr.strip s.
Proof.
  intros Ha Hb. unfold PyStr.strip. rewrite (lstrip_app_space a _ Ha).
  apply strip_app_space_r, Hb.
Qed.


Lemma decimal_char c :
  PyStr.isdecimal c = true ->
  PyStr.int_space c = false /\ PyStr.code_is 45 c = false /\ PyStr.code_is 43 c = false
  /\ PyStr.code_is 95 c = false /\ PyStr.isdigit_char c = true
  /\ PyStr.isword c = true
  /\ PyStr.digit_value c = Some (Z.of_N (PyStr.code c) - 48)
  /\ 0 <= Z.of_N (PyStr.code c) - 48 <= 9.
Proof.
  each_char c; vm_compute; intros H; try discriminate H;
    repeat split; discriminate.
Qed.

Lemma digit_class_char c :
  PyStr.isdigit_char c = true ->
  PyStr.int_space c = false /\ PyStr.code_is 45 c = false /\ PyStr.code_is 43 c = false
  /\ PyStr.code_is 95 c = false
  /\ (PyStr.isdecimal c = false -> PyStr.digit_value c = None).
Proof.
  each_char c; vm_compute; intros H; try discriminate H;
    repeat split; first [reflexivity | discriminate].
Qed.

Lemma digit_value_decimal c d : PyStr.digit_value c = Some d -> PyStr.isdecimal c = true.
Proof. unfold PyStr.digit_value. destruct (PyStr.isdecimal c); [reflexivity | discriminate]. Qed.


Lemma scan_digits_decimal s :
  forall acc, PyStr.all PyStr.isdecimal s = true ->
              PyStr.scan_digits acc s = (decimal_value_from acc s, "").
Proof.
  induction s as [| c t IH]; intros acc H; cbn; [reflexivity |].
  cbn in H. apply andb_true_iff in H. destruct H as [Hc Ht].
  destruct (decimal_char c Hc) as (_ & _ & _ & _ & _ & _ & -> & _).
  apply IH, Ht.
Qed.

Lemma int_decimal s :
  s <> "" -> PyStr.all PyStr.isdecimal s = true -> PyStr.int s = Some (decimal_value s).
Proof.
  destruct s as [| c t]; [congruence |]. intros _ H.
  cbn in H. apply andb_true_iff in H. destruct H as [Hc Ht].
  destruct (decimal_char c Hc) as (Hs & Hm & Hp & _ & _ & _ & Hv & _).
  unfold PyStr.int. cbn [PyStr.skip_space]. rewrite Hs.
  cbn [PyStr.split_sign]. rewrite Hm, Hp, Hv.
  rewrite (scan_digits_decimal t _ Ht). cbn.
  unfold decimal_value. cbn. reflexivity.
Qed.

Lemma decimal_value_from_bound s :
  forall acc, PyStr.all PyStr.isdecimal s = true -> 0 <= acc ->
              acc * 10 ^ Z.of_nat (String.length s) <= decimal_value_from acc s
              < (acc + 1) * 10 ^ Z.of_nat (String.length s).
Proof.
  induction s as [| c t IH]; intros acc H Hacc.
  - cbn. lia.
  - cbn in H. apply andb_true_iff in H. destruct H as [Hc Ht].
    destruct (decimal_char c Hc) as (_ & _ & _ & _ & _ & _ & _ & Hd).
    cbn [decimal_value_from String.length]. rewrite pow10_succ.
    pose proof (pow10_pos (String.length t)) as P.
    specialize (IH (10 * acc + (Z.of_N (PyStr.code c) - 48)) Ht ltac:(lia)).
    nia.
Qed.

Lemma decimal_value_bound s :
  PyStr.all PyStr.isdecimal s = true ->
  0 <= decimal_value s < 10 ^ Z.of_nat (String.length s).
Proof.
  intros H. pose proof (decimal_value_from_bound s 0 H ltac:(lia)) as B.
  unfold decimal_value. lia.
Qed.

(** A string of digits in the sense of [str.isdigit] is read by [int] only
    when all its digits are decimal. *)
Lemma scan_digits_digit_class s :
  forall acc v rest,
    PyStr.all PyStr.isdigit_char s = true ->
    PyStr.scan_digits acc s = (v, rest) ->
    (rest = "" /\ PyStr.all PyStr.isdecimal s = true)
    \/ (PyStr.all PyStr.isdecimal s = false /\ PyStr.is_empty (PyStr.skip_space rest) = false).
Proof.
  induction s as [| c t IH]; intros acc v rest H Hscan.
  - cbn in Hscan. injection Hscan as _ <-. left. auto.
  - cbn in H. apply andb_true_iff in H. destruct H as [Hc Ht].
    destruct (digit_class_char c Hc) as (Hs & _ & _ & Hu & Hn).
    cbn [PyStr.scan_digits] in Hscan. cbn [PyStr.all].
    destruct (PyStr.digit_value c) as [d |] eqn:Ed.
    + rewrite (digit_value_decimal c d Ed). cbn [andb].
      exact (IH _ _ _ Ht Hscan).
    + rewrite Hu in Hscan. injection Hscan as _ <-. right.
      assert (PyStr.isdecimal c = false) as ->.
      { destruct (PyStr.isdecimal c) eqn:E; [| reflexivity].
        destruct (decimal_char c E) as (_ & _ & _ & _ & _ & _ & Hv & _). congruence. }
      cbn [andb PyStr.skip_space]. rewrite Hs. auto.
Qed.

Lemma int_digit_class s :
  PyStr.isdigit s = true ->
  (PyStr.all PyStr.isdecimal s = true /\ PyStr.int s = Some (decimal_value s))
  \/ (PyStr.all PyStr.isdecimal s = false /\ PyStr.int s = None).
Proof.
  unfold PyStr.isdigit. destruct s as [| c t]; [discriminate |]. cbn [PyStr.is_empty negb andb].
  intros H. destruct (PyStr.all PyStr.isdecimal (String c t)) eqn:E.
  - left. split; [reflexivity |]. apply int_decimal; [discriminate | exact E].
  - right. split; [reflexivity |].
    cbn in H. apply andb_true_iff in H. destruct H as [Hc Ht].
    destruct (digit_class_char c Hc) as (Hs & Hm & Hp & _ & Hn).
    unfold PyStr.int. cbn [PyStr.skip_space]. rewrite Hs.
    cbn [PyStr.split_sign]. rewrite Hm, Hp.
    destruct (PyStr.digit_value c) as [d |] eqn:Ed; [| reflexivity].
    destruct (PyStr.scan_digits d t) as [v rest] eqn:Escan.
    destruct (scan_digits_digit_class t d v rest Ht Escan) as [[-> Hall] | [_ Hrest]].
    + cbn in E. rewrite (digit_value_decimal c d Ed), Hall in E. discriminate E.
    + rewrite Hrest. reflexivity.
Qed.

(** ** What the base parser reads *)

Lemma int_lower_bound s v :
  PyStr.int s = Some v -> - 10 ^ (Z.of_nat (String.length s) - 1) < v.
Proof.
  unfold PyStr.int.
  destruct (PyStr.split_sign (PyStr.skip_space s)) as [neg body] eqn:Es.
  pose proof (skip_space_length s) as Hs.
  destruct body as [| c t]; [discriminate |].
  destruct (PyStr.digit_value c) as [d |] eqn:Ed; [| discriminate].
  apply digit_value_range in Ed.
  destruct (PyStr.scan_digits d t) as [w rest] eqn:Escan.
  apply (scan_digits_bound (String.length t)) in Escan; [| lia | lia].
  destruct (PyStr.is_empty _); [| discriminate].
  intros [= <-].
  destruct neg.
  - assert (S (String.length (String c t)) <= String.length s)%nat as L.
    { revert Es. destruct (PyStr.skip_space s) as [| c' t'] eqn:Ek; cbn.
      - discriminate.
      - destruct (PyStr.code_is 45 c').
        + intros [= ->]. cbn in Hs |- *. lia.
        + destruct (PyStr.code_is 43 c'); discriminate. }
    cbn [String.length] in L.
    assert (10 ^ Z.of_nat (S (String.length t)) <= 10 ^ (Z.of_nat (String.length s) - 1)) as M
        by (apply Z.pow_le_mono_r; lia).
    rewrite pow10_succ in M. pose proof (pow10_pos (String.length t)). nia.
  - assert (0 < 10 ^ (Z.of_nat (String.length s) - 1)) as P.
    { apply Z.pow_pos_nonneg; [lia |].
      apply split_sign_length in Es. cbn [String.length] in Es. lia. }
    lia.
Qed.

Lemma length_12_chars s :
  String.length s = 12%nat ->
  exists c0 c1 c2 c3 c4 c5 c6 c7 c8 c9 c10 c11,
    s = String c0 (String c1 (String c2 (String c3 (String c4 (String c5
        (String c6 (String c7 (String c8 (String c9 (String c10 (String c11 ""))))))))))).
Proof.
  intros H.
  do 12 (destruct s as [| ? s]; [discriminate H |]; cbn in H; injection H as H).
  destruct s; [| discriminate H].
  repeat eexists.
Qed.

Lemma century_year_range s :
  -9 <= s <= 99 ->
  1891 <= century_year s <= 2025
  /\ (0 <= s -> 1926 <= century_year s).
Proof.
  intros H. unfold century_year.
  destruct (Z.leb_spec 0 s); destruct (Z.leb_spec s 25); cbn [andb]; lia.
Qed.

Lemma parse_nic_base_new nic :
  PyStr.len (PyStr.strip nic) = 12 ->
  parse_nic_base nic
  = (if negb (PyStr.isdigit (PyStr.strip nic)) then Err InvalidNewNIC
     else
       birth_year <- int_or InvalidLiteral (PyStr.slice 0 4 (PyStr.strip nic)) ;;
       raw_day_code <- int_or InvalidLiteral (PyStr.slice 4 7 (PyStr.strip nic)) ;;
       Ok (NEW, birth_year, raw_day_code)).
Proof. intros H. unfold parse_nic_base. rewrite H. reflexivity. Qed.

Lemma parse_nic_base_other nic :
  PyStr.len (PyStr.strip nic) <> 10 -> PyStr.len (PyStr.strip nic) <> 12 ->
  parse_nic_base nic = Err InvalidLength.
Proof.
  intros H10 H12. unfold parse_nic_base.
  destruct (Z.eqb_spec (PyStr.len (PyStr.strip nic)) 10); [contradiction |].
  destruct (Z.eqb_spec (PyStr.len (PyStr.strip nic)) 12); [contradiction |].
  reflexivity.
Qed.

(** Old format, first five characters decimal digits *)
Lemma parse_old_digits nic :
  PyStr.len (PyStr.strip nic) = 10 ->
  PyStr.all PyStr.isdecimal (PyStr.slice 0 5 (PyStr.strip nic)) = true ->
  parse_nic_base nic
  = Ok (OLD, century_year (decimal_value (PyStr.slice 0 2 (PyStr.strip nic))),
        decimal_value (PyStr.slice 2 5 (PyStr.strip nic)))
  /\ 0 <= decimal_value (PyStr.slice 0 2 (PyStr.strip nic)) <= 99
  /\ 0 <= decimal_value (PyStr.slice 2 5 (PyStr.strip nic)) <= 999.
Proof.
  intros L D. rewrite (parse_nic_base_old nic L).
  apply (len_is 10) in L.
  destruct (length_10_chars _ L) as (c0&c1&c2&c3&c4&c5&c6&c7&c8&c9&E).
  rewrite E in *. clear E L.
  unfold PyStr.slice in *. cbn [substring Nat.sub] in *.
  cbn [PyStr.all] in D.
  repeat (apply andb_true_iff in D; destruct D as [? D]).
  assert (PyStr.all PyStr.isdecimal (String c0 (String c1 "")) = true) as D2
      by by_char_facts.
  assert (PyStr.all PyStr.isdecimal (String c2 (String c3 (String c4 ""))) = true) as D3
      by by_char_facts.
  unfold int_or.
  rewrite !int_decimal by (discriminate || assumption).
  cbn [bind].
  pose proof (decimal_value_bound _ D2) as B2.
  pose proof (decimal_value_bound _ D3) as B3.
  cbn [String.length] in B2, B3.
  change (10 ^ Z.of_nat 2) with 100 in B2. change (10 ^ Z.of_nat 3) with 1000 in B3.
  repeat split; lia.
Qed.

(** New format *)
Lemma parse_new_digits nic :
  PyStr.len (PyStr.strip nic) = 12 ->
  PyStr.isdigit (PyStr.strip nic) = true ->
  (PyStr.all PyStr.isdecimal (PyStr.slice 0 7 (PyStr.strip nic)) = true
   /\ parse_nic_base nic
      = Ok (NEW, decimal_value (PyStr.slice 0 4 (PyStr.strip nic)),
            decimal_value (PyStr.slice 4 7 (PyStr.strip nic)))
   /\ 0 <= decimal_value (PyStr.slice 0 4 (PyStr.strip nic)) <= 9999
   /\ 0 <= decimal_value (PyStr.slice 4 7 (PyStr.strip nic)) <= 999)
  \/ (PyStr.all PyStr.isdecimal (PyStr.slice 0 7 (PyStr.strip nic)) = false
      /\ parse_nic_base nic = Err InvalidLiteral).
Proof.
  intros L D. rewrite (parse_nic_base_new nic L). rewrite D. cbn [negb].
  apply (len_is 12) in L.
  destruct (length_12_chars _ L) as (c0&c1&c2&c3&c4&c5&c6&c7&c8&c9&c10&c11&E).
  rewrite E in *. clear E L.
  unfold PyStr.slice. cbn [substring Nat.sub].
  unfold PyStr.isdigit in D. cbn [PyStr.is_empty negb andb PyStr.all] in D.
  repeat (apply andb_true_iff in D; destruct D as [? D]).
  assert (PyStr.isdigit (String c0 (String c1 (String c2 (String c3 "")))) = true) as D4
      by by_char_facts.
  assert (PyStr.isdigit (String c4 (String c5 (String c6 ""))) = true) as D3
      by by_char_facts.
  unfold int_or.
  destruct (int_digit_class _ D4) as [[A4 ->] | [A4 ->]];
    destruct (int_digit_class _ D3) as [[A3 ->] | [A3 ->]]; cbn [bind].
  - left.
    pose proof (decimal_value_bound _ A4) as B4.
    pose proof (decimal_value_bound _ A3) as B3.
    cbn [String.length] in B4, B3.
    change (10 ^ Z.of_nat 4) with 10000 in B4. change (10 ^ Z.of_nat 3) with 1000 in B3.
    cbn [PyStr.all] in A4, A3 |- *.
    repeat (apply andb_true_iff in A4; destruct A4 as [? A4]).
    repeat (apply andb_true_iff in A3; destruct A3 as [? A3]).
    repeat apply conj; first [lia | by_char_facts].
  - right. split; [| reflexivity].
    cbn [PyStr.all] in A3 |- *.
    repeat match goal with |- context [PyStr.isdecimal ?c] => destruct (PyStr.isdecimal c) end;
      cbn in *; congruence.
  - right. split; [| reflexivity].
    cbn [PyStr.all] in A4 |- *.
    repeat match goal with |- context [PyStr.isdecimal ?c] => destruct (PyStr.isdecimal c) end;
      cbn in *; congruence.
  - right. split; [| reflexivity].
    cbn [PyStr.all] in A4 |- *.
    repeat match goal with |- context [PyStr.isdecimal ?c] => destruct (PyStr.isdecimal c) end;
      cbn in *; congruence.
Qed.

(** Ranges of what the parser returns *)
Lemma parse_nic_base_bounds nic k y raw :
  parse_nic_base nic = Ok (k, y, raw) ->
  (k = OLD /\ PyStr.len (PyStr.strip nic) = 10
   /\ 1891 <= y <= 2025 /\ -99 <= raw <= 999)
  \/ (k = NEW /\ PyStr.len (PyStr.strip nic) = 12
      /\ PyStr.isdigit (PyStr.strip nic) = true
      /\ 0 <= y <= 9999 /\ 0 <= raw <= 999).
Proof.
  intros P.
  destruct (Z.eq_dec (PyStr.len (PyStr.strip nic)) 10) as [L10 | N10].
  - left. rewrite (parse_nic_base_old nic L10) in P. unfold int_or in P.
    destruct (PyStr.int (PyStr.slice 0 2 _)) as [s |] eqn:Es; [| discriminate P].
    destruct (PyStr.int (PyStr.slice 2 5 _)) as [r |] eqn:Er; [| discriminate P].
    cbn [bind] in P. injection P as <- <- <-.
    pose proof (int_bound _ _ Es) as B1. pose proof (int_lower_bound _ _ Es) as B2.
    pose proof (int_bound _ _ Er) as B3. pose proof (int_lower_bound _ _ Er) as B4.
    apply (len_is 10) in L10.
    destruct (length_10_chars _ L10) as (c0&c1&c2&c3&c4&c5&c6&c7&c8&c9&E).
    rewrite E in B1, B2, B3, B4. unfold PyStr.slice in B1, B2, B3, B4.
    cbn [substring Nat.sub String.length] in B1, B2, B3, B4.
    change (10 ^ Z.of_nat 2) with 100 in B1. change (10 ^ (Z.of_nat 2 - 1)) with 10 in B2.
    change (10 ^ Z.of_nat 3) with 1000 in B3. change (10 ^ (Z.of_nat 3 - 1)) with 100 in B4.
    apply (len_is 10) in L10.
    destruct (century_year_range s ltac:(lia)) as [C _].
    repeat split; lia.
  - destruct (Z.eq_dec (PyStr.len (PyStr.strip nic)) 12) as [L12 | N12].
    + right. destruct (PyStr.isdigit (PyStr.strip nic)) eqn:D.
      * destruct (parse_new_digits nic L12 D) as [(_ & E & By & Br) | (_ & E)];
          rewrite E in P; [| discriminate P].
        injection P as <- <- <-. repeat split; lia.
      * rewrite (parse_nic_base_new nic L12), D in P. discriminate P.
    + rewrite (parse_nic_base_other nic N10 N12) in P. discriminate P.
Qed.

(** ** The outcomes of the date resolver *)

Lemma toordinal_january_first y : toordinal (mkdate y 1 1) = days_before_year y + 1.
Proof.
  unfold toordinal, ymd2ord. cbn [year month day].
  change (days_before_month y 1) with 0. lia.
Qed.

Lemma days_before_year_range y :
  1 <= y <= 9999 -> 0 <= days_before_year y <= 3651694.
Proof.
  intros H.
  pose proof (days_before_year_mono 1 y ltac:(lia)) as M1.
  pose proof (days_before_year_mono y 9999 ltac:(lia)) as M2.
  change (days_before_year 1) with 0 in M1.
  change (days_before_year 9999) with 3651694 in M2. lia.
Qed.

Lemma nic_to_date_cases y d off :
  nic_to_date y d off
  = if (y <? INT_MIN) || (INT_MAX <? y) then Err IntOverflow
    else if (y <? 1) || (9999 <? y) then Err FieldOutOfRange
    else if (0 <? asked_ordinal y d off) && (asked_ordinal y d off <=? MAXORDINAL)
         then Ok (ord2ymd (asked_ordinal y d off))
         else Err DateOutOfRange.
Proof.
  unfold nic_to_date, datetime, MINYEAR, MAXYEAR.
  destruct ((y <? INT_MIN) || (INT_MAX <? y)); [reflexivity |].
  destruct (Z.ltb_spec y 1); [reflexivity |].
  destruct (Z.ltb_spec 9999 y); [reflexivity |]. cbn [orb].
  change ((1 <? 1) || (12 <? 1)) with false.
  change (days_in_month y 1) with 31. change ((1 <? 1) || (31 <? 1)) with false.
  cbn [bind]. unfold add_days, asked_ordinal, MAX_DELTA_DAYS, MAXORDINAL.
  rewrite toordinal_january_first.
  pose proof (days_before_year_range y ltac:(lia)) as B.
  destruct (Z.ltb_spec 999999999 (Z.abs (d - off))).
  - destruct (Z.ltb_spec 0 (days_before_year y + 1 + (d - off)));
      destruct (Z.leb_spec (days_before_year y + 1 + (d - off)) 3652059);
      cbn [andb]; first [reflexivity | lia].
  - destruct ((0 <? _) && (_ <=? _)); reflexivity.
Qed.

Lemma ord2ymd_year n y :
  year (ord2ymd n) = y <-> days_before_year y < n <= days_before_year (y + 1).
Proof.
  pose proof (toordinal_ord2ymd n) as O.
  destruct (ord2ymd_calendar_date n) as [Hm Hd].
  destruct (ord2ymd n) as [y' m' d']. unfold toordinal, ymd2ord in O.
  cbn [year month day] in *.
  pose proof (day_of_year_bounds y' m' d' Hm Hd) as B.
  pose proof (days_before_year_succ y') as S'.
  split.
  - intros <-. lia.
  - intros R. destruct (Z.lt_trichotomy y' y) as [L | [L | L]]; [exfalso | exact L | exfalso].
    + pose proof (days_before_year_mono (y' + 1) y ltac:(lia)). lia.
    + pose proof (days_before_year_mono (y + 1) y' ltac:(lia)). lia.
Qed.

Lemma ord2ymd_year_le n y :
  n <= days_before_year (y + 1) -> year (ord2ymd n) <= y.
Proof.
  intros H. destruct (Z.le_gt_cases (year (ord2ymd n)) y) as [L | L]; [exact L | exfalso].
  pose proof (proj1 (ord2ymd_year n (year (ord2ymd n))) eq_refl) as R.
  pose proof (days_before_year_mono (y + 1) (year (ord2ymd n)) ltac:(lia)). lia.
Qed.

Lemma ord2ymd_year_ge n y :
  days_before_year y < n -> y <= year (ord2ymd n).
Proof.
  intros H. destruct (Z.le_gt_cases y (year (ord2ymd n))) as [L | L]; [exact L | exfalso].
  pose proof (proj1 (ord2ymd_year n (year (ord2ymd n))) eq_refl) as R.
  pose proof (days_before_year_mono (year (ord2ymd n) + 1) y ltac:(lia)). lia.
Qed.

Lemma days_in_year_succ y :
  days_before_year (y + 1) = days_before_year y + days_in_year y.
Proof. rewrite days_before_year_succ. unfold days_in_year. destruct (is_leap y); lia. Qed.

Lemma days_in_year_range y : 365 <= days_in_year y <= 366.
Proof. unfold days_in_year. destruct (is_leap y); lia. Qed.

Lemma asked_ordinal_eq y d off :
  asked_ordinal y d off = days_before_year y + 1 + (d - off).
Proof. unfold asked_ordinal. rewrite toordinal_january_first. reflexivity. Qed.

Lemma nic_to_date_asked y d off r :
  nic_to_date y d off = Ok r ->
  1 <= y <= 9999 /\ 0 < asked_ordinal y d off <= MAXORDINAL
  /\ r = ord2ymd (asked_ordinal y d off).
Proof.
  rewrite nic_to_date_cases.
  destruct ((y <? INT_MIN) || (INT_MAX <? y)); [discriminate |].
  destruct (Z.ltb_spec y 1); [discriminate |].
  destruct (Z.ltb_spec 9999 y); [discriminate |]. cbn [orb].
  destruct (Z.ltb_spec 0 (asked_ordinal y d off)); [| discriminate].
  destruct (Z.leb_spec (asked_ordinal y d off) MAXORDINAL); [| discriminate].
  cbn [andb]. intros [= <-]. repeat split; lia.
Qed.

(** X7. The date that [nic_to_date] returns lies in the birth year
    exactly when [day_code - offset] is one of the 0-based days of that
    year; a negative difference gives a date of an earlier year, and a
    difference of the length of the year or more a date of a later year.
    Within the birth year, the date is day [day_code - offset + 1] of the
    year. *)
Theorem nic_to_date_year y d off r :
  nic_to_date y d off = Ok r ->
  (year r = y <-> 0 <= d - off < days_in_year y)
  /\ (d - off < 0 -> year r < y)
  /\ (days_in_year y <= d - off -> y < year r)
  /\ (year r = y -> days_before_month y (month r) + day r = d - off + 1).
Proof.
  intros H. apply nic_to_date_asked in H. destruct H as (_ & _ & ->).
  pose proof (asked_ordinal_eq y d off) as A.
  generalize dependent (asked_ordinal y d off). intros n A.
  pose proof (days_in_year_succ y) as S.
  pose proof (ord2ymd_year n y) as Y.
  pose proof (ord2ymd_year_le n (y - 1)) as Lo.
  replace (y - 1 + 1) with y in Lo by lia.
  pose proof (ord2ymd_year_ge n (y + 1)) as Hi.
  pose proof (toordinal_ord2ymd n) as O.
  unfold toordinal, ymd2ord in O.
  split; [| split; [| split]].
  - split; intros K; [apply Y in K; lia | apply Y; lia].
  - intros K. lia.
  - intros K. lia.
  - intros E. rewrite E in O. lia.
Qed.


(** nic_to_date outcome *)
(** X6. What [nic_to_date] does, for all integers: a year that does not
    fit a C int raises the overflow error of [datetime], which the
    function does not turn into a [ValueError]; any other year outside
    1..9999 raises the error of [datetime]; for a year in 1..9999 the
    function returns the date of the ordinal asked for when that ordinal
    is one of 1..3652059 (1 January 1 to 31 December 9999), and raises the
    date error otherwise.  The limit of [timedelta] never decides. *)
Theorem nic_to_date_outcome y d off :
  (nic_to_date y d off = Err IntOverflow <-> y < INT_MIN \/ INT_MAX < y)
  /\ (nic_to_date y d off = Err FieldOutOfRange
      <-> INT_MIN <= y <= INT_MAX /\ ~ 1 <= y <= 9999)
  /\ (nic_to_date y d off = Err DateOutOfRange
      <-> 1 <= y <= 9999 /\ ~ 0 < asked_ordinal y d off <= MAXORDINAL)
  /\ (nic_to_date y d off = Ok (ord2ymd (asked_ordinal y d off))
      <-> 1 <= y <= 9999 /\ 0 < asked_ordinal y d off <= MAXORDINAL)
  /\ (forall e, nic_to_date y d off = Err e ->
                e = IntOverflow \/ e = FieldOutOfRange \/ e = DateOutOfRange).
Proof.
  rewrite nic_to_date_cases.
  generalize (ord2ymd (asked_ordinal y d off)). intros r0.
  generalize (asked_ordinal y d off). intros n.
  assert (INT_MIN < 1 /\ 9999 < INT_MAX) as [I1 I2] by (unfold INT_MIN, INT_MAX; lia).
  destruct (Z.ltb_spec y INT_MIN); cbn [orb]; [outcome |].
  destruct (Z.ltb_spec INT_MAX y); cbn [orb]; [outcome |].
  destruct (Z.ltb_spec y 1); cbn [orb]; [outcome |].
  destruct (Z.ltb_spec 9999 y); cbn [orb]; [outcome |].
  destruct (Z.ltb_spec 0 n); destruct (Z.leb_spec n MAXORDINAL); cbn [andb]; outcome.
Qed.

Lemma nic_to_date_year_witness :
  nic_to_date 1991 1 2 = Ok (mkdate 1990 12 31)
  /\ (1 - 2 < 0 -> year (mkdate 1990 12 31) < 1991).
Proof.
  split; [reflexivity |].
  exact (proj1 (proj2 (nic_to_date_year 1991 1 2 (mkdate 1990 12 31) eq_refl))).
Defined.

(** ** The stages of the decoder *)

Lemma strip_all_space s : PyStr.all PyStr.isspace s = true -> PyStr.strip s = "".
Proof. intros H. unfold PyStr.strip. rewrite (lstrip_all_space s H). reflexivity. Qed.

Lemma is_valid_nic_new nic :
  PyStr.len (PyStr.strip nic) = 12 ->
  is_valid_nic nic = PyStr.isdigit (PyStr.strip nic).
Proof. intros H. unfold is_valid_nic. rewrite H. reflexivity. Qed.

Lemma is_valid_nic_old_digits nic :
  PyStr.len (PyStr.strip nic) = 10 -> is_valid_nic nic = true ->
  PyStr.all PyStr.isdecimal (PyStr.slice 0 5 (PyStr.strip nic)) = true.
Proof.
  intros L V. apply is_valid_nic_word_shape in V.
  destruct V as [(_ & D & _) | (L12 & _)]; [exact D | lia].
Qed.

Lemma is_valid_nic_length nic :
  is_valid_nic nic = true ->
  PyStr.len (PyStr.strip nic) = 10 \/ PyStr.len (PyStr.strip nic) = 12.
Proof.
  intros V. apply is_valid_nic_word_shape in V.
  destruct V as [(L & _) | (L & _)]; auto.
Qed.

Lemma decode_nic_unfold nic offset k y raw :
  parse_nic_base nic = Ok (k, y, raw) ->
  decode_nic nic offset
  = if (snd (gender_and_day_code raw) <? 0)
       || (366 + offset + 5 <? snd (gender_and_day_code raw))
    then Err DayCodeOutOfRange
    else
      birth_date <- nic_to_date y (snd (gender_and_day_code raw)) offset ;;
      Ok (mkNICInfo k (fst (gender_and_day_code raw)) y raw
            (snd (gender_and_day_code raw)) birth_date).
Proof.
  intros P. unfold decode_nic. rewrite P. cbn [bind].
  destruct (gender_and_day_code raw) as [g dc]. reflexivity.
Qed.

Lemma decode_nic_parse_failure nic offset e :
  parse_nic_base nic = Err e -> decode_nic nic offset = Err e.
Proof. intros P. unfold decode_nic. rewrite P. reflexivity. Qed.

Lemma parse_nic_base_error_kinds nic e :
  parse_nic_base nic = Err e -> parse_error e.
Proof.
  unfold parse_nic_base, parse_error, bind, int_or.
  repeat match goal with
         | |- context [if ?b then _ else _] => destruct b
         | |- context [match PyStr.int ?s with _ => _ end] => destruct (PyStr.int s)
         end;
    intros [= <-]; auto.
Qed.

Lemma decode_nic_late_errors nic offset k y raw e :
  parse_nic_base nic = Ok (k, y, raw) ->
  decode_nic nic offset = Err e ->
  e = DayCodeOutOfRange \/ e = FieldOutOfRange \/ e = DateOutOfRange.
Proof.
  intros P. rewrite (decode_nic_unfold nic offset k y raw P).
  destruct (_ || _); [intros [= <-]; auto |].
  apply parse_nic_base_bounds in P.
  assert (0 <= y <= 9999) as By by (destruct P as [P | P]; lia).
  rewrite nic_to_date_cases.
  generalize (ord2ymd (asked_ordinal y (snd (gender_and_day_code raw)) offset)).
  intros r0.
  assert (INT_MIN < 0 /\ 9999 < INT_MAX) as [I1 I2] by (unfold INT_MIN, INT_MAX; lia).
  destruct (Z.ltb_spec y INT_MIN); [lia |].
  destruct (Z.ltb_spec INT_MAX y); [lia |]. cbn [orb].
  destruct ((y <? 1) || (9999 <? y)); cbn [bind]; [intros [= <-]; auto |].
  destruct (_ && _); cbn [bind]; [discriminate | intros [= <-]; auto].
Qed.

(** ** Inputs of the validator and the parser *)

(** X1. Whitespace around a NIC string changes nothing: with any run of
    whitespace characters before and after it, [is_valid_nic],
    [parse_nic_base] and [decode_nic] return what they return on the
    string itself. *)
Theorem surrounding_whitespace_is_ignored a b nic offset :
  PyStr.all PyStr.isspace a = true -> PyStr.all PyStr.isspace b = true ->
  is_valid_nic (a ++ nic ++ b) = is_valid_nic nic
  /\ parse_nic_base (a ++ nic ++ b) = parse_nic_base nic
  /\ decode_nic (a ++ nic ++ b) offset = decode_nic nic offset.
Proof.
  intros Ha Hb.
  assert (parse_nic_base (a ++ nic ++ b) = parse_nic_base nic) as P
      by (unfold parse_nic_base; rewrite (strip_padded a nic b Ha Hb); reflexivity).
  split; [| split; [exact P |]].
  - unfold is_valid_nic. rewrite (strip_padded a nic b Ha Hb). reflexivity.
  - unfold decode_nic. rewrite P. reflexivity.
Qed.

Lemma surrounding_whitespace_is_ignored_witness :
  PyStr.all PyStr.isspace " " = true /\ PyStr.all PyStr.isspace "  " = true
  /\ decode_nic (" " ++ "912680444V" ++ "  ") 2 = decode_nic "912680444V" 2.
Proof.
  split; [reflexivity |]. split; [reflexivity |].
  exact (proj2 (proj2 (surrounding_whitespace_is_ignored " " "  " "912680444V" 2
                         eq_refl eq_refl))).
Defined.

(** X2. On the empty string and on a string of whitespace only,
    [is_valid_nic] returns false, and [parse_nic_base] and [decode_nic]
    raise the length error. *)
Theorem blank_input_is_rejected nic offset :
  PyStr.all PyStr.isspace nic = true ->
  is_valid_nic nic = false
  /\ parse_nic_base nic = Err InvalidLength
  /\ decode_nic nic offset = Err InvalidLength.
Proof.
  intros H. pose proof (strip_all_space nic H) as E.
  assert (parse_nic_base nic = Err InvalidLength) as P
      by (unfold parse_nic_base; rewrite E; reflexivity).
  split; [| split; [exact P |]].
  - unfold is_valid_nic. rewrite E. reflexivity.
  - apply decode_nic_parse_failure, P.
Qed.

Lemma blank_input_is_rejected_witness :
  PyStr.all PyStr.isspace "" = true
  /\ is_valid_nic "" = false /\ parse_nic_base "" = Err InvalidLength
  /\ decode_nic "" 2 = Err InvalidLength.
Proof.
  split; [reflexivity |]. exact (blank_input_is_rejected "" 2 eq_refl).
Defined.

(** X3. The errors of [parse_nic_base], on the stripped string: the
    length error exactly for a length other than 10 and 12; the old-format
    error exactly for length 10 when the two year characters or the three
    day characters are not an integer literal; the new-format error
    exactly for length 12 when [str.isdigit] fails; and the error of
    [int] itself, which the function does not catch, exactly for length 12
    when [str.isdigit] holds and one of the first seven characters is a
    digit that is not decimal (a superscript).  It raises no other
    error. *)
Theorem parse_nic_base_errors nic :
  (parse_nic_base nic = Err InvalidLength
   <-> PyStr.len (PyStr.strip nic) <> 10 /\ PyStr.len (PyStr.strip nic) <> 12)
  /\ (parse_nic_base nic = Err InvalidOldNIC
      <-> PyStr.len (PyStr.strip nic) = 10
          /\ (PyStr.int (PyStr.slice 0 2 (PyStr.strip nic)) = None
              \/ PyStr.int (PyStr.slice 2 5 (PyStr.strip nic)) = None))
  /\ (parse_nic_base nic = Err InvalidNewNIC
      <-> PyStr.len (PyStr.strip nic) = 12 /\ PyStr.isdigit (PyStr.strip nic) = false)
  /\ (parse_nic_base nic = Err InvalidLiteral
      <-> PyStr.len (PyStr.strip nic) = 12 /\ PyStr.isdigit (PyStr.strip nic) = true
          /\ PyStr.all PyStr.isdecimal (PyStr.slice 0 7 (PyStr.strip nic)) = false)
  /\ (forall e, parse_nic_base nic = Err e -> parse_error e).
Proof.
  split; [| split; [| split; [| split]]]; [| | | | apply parse_nic_base_error_kinds].
  all: destruct (Z.eq_dec (PyStr.len (PyStr.strip nic)) 10) as [L10 | N10];
    [ rewrite (parse_nic_base_old nic L10); unfold int_or;
      destruct (PyStr.int (PyStr.slice 0 2 (PyStr.strip nic)));
      destruct (PyStr.int (PyStr.slice 2 5 (PyStr.strip nic))); cbn [bind];
      split; intros K; first [discriminate K | reflexivity | lia | tauto
                            | intuition (first [discriminate | lia])]
    | destruct (Z.eq_dec (PyStr.len (PyStr.strip nic)) 12) as [L12 | N12];
      [ | rewrite (parse_nic_base_other nic N10 N12);
          split; intros K; first [discriminate K | reflexivity | lia | tauto] ] ].
  all: destruct (PyStr.isdigit (PyStr.strip nic)) eqn:D;
    [ destruct (parse_new_digits nic L12 D) as [(A & -> & _) | (A & ->)]
    | rewrite (parse_nic_base_new nic L12), D; cbn [negb] ];
    split; intros K;
    first [discriminate K | reflexivity | lia
          | intuition (first [discriminate | congruence | lia])].
Qed.

(** X4. An old-format string that [is_valid_nic] accepts is always
    parsed: the year is the century rule applied to the number written by
    the first two digits and lies in 1926..2025, and the raw day code is
    the number written by the next three digits, in 0..999. *)
Theorem valid_old_format_parses nic :
  PyStr.len (PyStr.strip nic) = 10 -> is_valid_nic nic = true ->
  parse_nic_base nic
  = Ok (OLD, century_year (decimal_value (PyStr.slice 0 2 (PyStr.strip nic))),
        decimal_value (PyStr.slice 2 5 (PyStr.strip nic)))
  /\ 1926 <= century_year (decimal_value (PyStr.slice 0 2 (PyStr.strip nic))) <= 2025
  /\ 0 <= decimal_value (PyStr.slice 2 5 (PyStr.strip nic)) <= 999.
Proof.
  intros L V. pose proof (is_valid_nic_old_digits nic L V) as D.
  destruct (parse_old_digits nic L D) as (P & By & Br).
  destruct (century_year_range (decimal_value (PyStr.slice 0 2 (PyStr.strip nic)))
              ltac:(lia)) as [C1 C2].
  repeat split; first [exact P | lia].
Qed.

Lemma valid_old_format_parses_witness :
  PyStr.len (PyStr.strip "912680444V") = 10 /\ is_valid_nic "912680444V" = true
  /\ parse_nic_base "912680444V"
     = Ok (OLD, century_year (decimal_value (PyStr.slice 0 2 (PyStr.strip "912680444V"))),
           decimal_value (PyStr.slice 2 5 (PyStr.strip "912680444V"))).
Proof.
  split; [reflexivity |]. split; [reflexivity |].
  exact (proj1 (valid_old_format_parses "912680444V" eq_refl eq_refl)).
Defined.

(** X5. For a string of stripped length 12, every result of
    [parse_nic_base] has the new format, an input that [is_valid_nic]
    accepts, seven leading decimal digits, the year written by the first
    four of them (0..9999, so also the year 0) and the raw day code written
    by the next three (0..999).  An accepted string is parsed when its
    first seven characters are decimal digits, and otherwise [int] raises
    its error. *)
Theorem new_format_parses nic :
  PyStr.len (PyStr.strip nic) = 12 ->
  (forall k y raw,
      parse_nic_base nic = Ok (k, y, raw) ->
      k = NEW /\ is_valid_nic nic = true
      /\ PyStr.all PyStr.isdecimal (PyStr.slice 0 7 (PyStr.strip nic)) = true
      /\ y = decimal_value (PyStr.slice 0 4 (PyStr.strip nic))
      /\ raw = decimal_value (PyStr.slice 4 7 (PyStr.strip nic))
      /\ 0 <= y <= 9999 /\ 0 <= raw <= 999)
  /\ (is_valid_nic nic = true ->
      PyStr.all PyStr.isdecimal (PyStr.slice 0 7 (PyStr.strip nic)) = true ->
      parse_nic_base nic
      = Ok (NEW, decimal_value (PyStr.slice 0 4 (PyStr.strip nic)),
            decimal_value (PyStr.slice 4 7 (PyStr.strip nic))))
  /\ (is_valid_nic nic = true ->
      PyStr.all PyStr.isdecimal (PyStr.slice 0 7 (PyStr.strip nic)) = false ->
      parse_nic_base nic = Err InvalidLiteral).
Proof.
  intros L. rewrite (is_valid_nic_new nic L).
  destruct (PyStr.isdigit (PyStr.strip nic)) eqn:D.
  - destruct (parse_new_digits nic L D) as [(A & P & By & Br) | (A & P)]; rewrite P.
    + split; [| split]; [| reflexivity | congruence].
      intros k y raw [= <- <- <-]. repeat split; first [assumption | lia].
    + split; [| split]; [discriminate | congruence | reflexivity].
  - rewrite (parse_nic_base_new nic L), D. cbn [negb].
    split; [| split]; discriminate.
Qed.

Lemma new_format_parses_witness :
  PyStr.len (PyStr.strip "199253600001") = 12
  /\ parse_nic_base "199253600001" = Ok (NEW, 1992, 536).
Proof.
  split; [reflexivity |].
  apply (proj1 (proj2 (new_format_parses "199253600001" eq_refl))); reflexivity.
Defined.

(** ** The outcomes of the decoder *)

Lemma days_before_year_two y :
  days_before_year y + 730 <= days_before_year (y + 1 + 1).
Proof.
  rewrite (days_in_year_succ (y + 1)), (days_in_year_succ y).
  pose proof (days_in_year_range y). pose proof (days_in_year_range (y + 1)). lia.
Qed.

(** X9. After a successful parse, [decode_nic] raises the error of
    [datetime] exactly when the day code is in range and the year is 0,
    which only the new format can give; it raises the date error exactly
    when the day code is in range, the year is at least 1 and the ordinal
    asked for is outside 1..3652059; and it returns the record of the
    parsed fields and the date of that ordinal exactly when the day code
    is in range, the year is at least 1 and the ordinal is inside.  It
    never raises the overflow error. *)
Theorem decode_nic_outcome nic offset k y raw :
  parse_nic_base nic = Ok (k, y, raw) ->
  (decode_nic nic offset = Err FieldOutOfRange
   <-> 0 <= snd (gender_and_day_code raw) <= 366 + offset + 5 /\ y = 0)
  /\ (decode_nic nic offset = Err DateOutOfRange
      <-> 0 <= snd (gender_and_day_code raw) <= 366 + offset + 5 /\ 1 <= y
          /\ ~ 0 < asked_ordinal y (snd (gender_and_day_code raw)) offset <= MAXORDINAL)
  /\ (decode_nic nic offset
      = Ok (mkNICInfo k (fst (gender_and_day_code raw)) y raw
              (snd (gender_and_day_code raw))
              (ord2ymd (asked_ordinal y (snd (gender_and_day_code raw)) offset)))
      <-> 0 <= snd (gender_and_day_code raw) <= 366 + offset + 5 /\ 1 <= y
          /\ 0 < asked_ordinal y (snd (gender_and_day_code raw)) offset <= MAXORDINAL)
  /\ decode_nic nic offset <> Err IntOverflow
  /\ (k = OLD -> decode_nic nic offset <> Err FieldOutOfRange).
Proof.
  intros P. rewrite (decode_nic_unfold nic offset k y raw P).
  apply parse_nic_base_bounds in P.
  assert (0 <= y <= 9999 /\ (k = OLD -> 1891 <= y)) as [By Bo].
  { destruct P as [(-> & _ & B & _) | (-> & _ & _ & B & _)]; split;
      first [lia | discriminate]. }
  clear P.
  rewrite nic_to_date_cases.
  generalize (ord2ymd (asked_ordinal y (snd (gender_and_day_code raw)) offset)).
  intros r0.
  generalize (asked_ordinal y (snd (gender_and_day_code raw)) offset). intros n.
  generalize (fst (gender_and_day_code raw)), (snd (gender_and_day_code raw)).
  intros g dc.
  assert (INT_MIN < 0 /\ 9999 < INT_MAX) as [I1 I2] by (unfold INT_MIN, INT_MAX; lia).
  destruct (Z.ltb_spec dc 0); cbn [orb].
  { repeat apply conj; intros; first [lia | congruence]. }
  destruct (Z.ltb_spec (366 + offset + 5) dc).
  { repeat apply conj; intros; first [lia | congruence]. }
  destruct (Z.ltb_spec y INT_MIN); [lia |].
  destruct (Z.ltb_spec INT_MAX y); [lia |]. cbn [orb].
  destruct (Z.ltb_spec y 1); cbn [orb bind].
  { repeat apply conj; intros; first [ reflexivity | lia | congruence
            | match goal with K : k = OLD |- _ => apply Bo in K; lia end ]. }
  destruct (Z.ltb_spec 9999 y); [lia |].
  destruct (Z.ltb_spec 0 n); destruct (Z.leb_spec n MAXORDINAL); cbn [andb bind];
    repeat apply conj; intros; first [reflexivity | lia | congruence].
Qed.

Lemma decode_nic_outcome_witness :
  parse_nic_base "000012300001" = Ok (NEW, 0, 123)
  /\ (decode_nic "000012300001" 2 = Err FieldOutOfRange
      <-> 0 <= snd (gender_and_day_code 123) <= 366 + 2 + 5 /\ 0 = 0).
Proof.
  split; [reflexivity |].
  exact (proj1 (decode_nic_outcome "000012300001" 2 NEW 0 123 eq_refl)).
Defined.

(** X10. [decode_nic] raises a parse error exactly when
    [parse_nic_base] raises it on the same string, whatever the offset:
    the errors of the parser pass through unchanged, and the later stages
    raise none of them. *)
Theorem parse_errors_propagate nic offset e :
  parse_error e ->
  decode_nic nic offset = Err e <-> parse_nic_base nic = Err e.
Proof.
  intros E. destruct (parse_nic_base nic) as [[[k y] raw] | e0] eqn:P.
  - split; [| discriminate]. intros D. exfalso.
    destruct (decode_nic_late_errors nic offset k y raw e P D) as [-> | [-> | ->]];
      unfold parse_error in E; intuition discriminate.
  - rewrite (decode_nic_parse_failure nic offset e0 P).
    split; intros [= <-]; reflexivity.
Qed.

Lemma parse_errors_propagate_witness :
  parse_error InvalidOldNIC
  /\ (decode_nic "invalid123" 2 = Err InvalidOldNIC
      <-> parse_nic_base "invalid123" = Err InvalidOldNIC).
Proof.
  split; [left; reflexivity |].
  apply (parse_errors_propagate "invalid123" 2 InvalidOldNIC). left. reflexivity.
Defined.

(** X11. In every record that [decode_nic] returns, the birth date is
    a date of the calendar in the years 1..9999, at the ordinal of
    1 January of the birth year plus [day_code - offset].  Its year is the
    birth year exactly when [offset <= day_code < offset + ] the length of
    the birth year; a day code below the offset gives a birth date in an
    earlier year than the birth year, and the year of the birth date is
    never more than one above the birth year. *)
Theorem decoded_birth_date nic offset info :
  decode_nic nic offset = Ok info ->
  valid_date (birth_date info)
  /\ toordinal (birth_date info)
     = asked_ordinal (birth_year info) (day_code info) offset
  /\ (year (birth_date info) = birth_year info
      <-> offset <= day_code info < offset + days_in_year (birth_year info))
  /\ (day_code info < offset -> year (birth_date info) < birth_year info)
  /\ year (birth_date info) <= birth_year info + 1.
Proof.
  intros D. apply decode_nic_inv in D.
  destruct D as (k & y & raw & _ & _ & <- & _ & _ & B & N).
  apply nic_to_date_asked in N. destruct N as (_ & R & ->).
  pose proof (asked_ordinal_eq (birth_year info) (day_code info) offset) as A.
  generalize dependent (asked_ordinal (birth_year info) (day_code info) offset).
  intros n R A.
  pose proof (days_in_year_succ (birth_year info)) as S.
  pose proof (ord2ymd_year n (birth_year info)) as Y.
  pose proof (ord2ymd_year_le n (birth_year info - 1)) as Lo.
  replace (birth_year info - 1 + 1) with (birth_year info) in Lo by lia.
  pose proof (ord2ymd_year_le n (birth_year info + 1)) as Hi.
  pose proof (days_before_year_two (birth_year info)) as T.
  destruct (ord2ymd_calendar_date n) as [Cm Cd].
  pose proof (ord2ymd_year_range n R) as Ry.
  split; [repeat split; first [apply Ry | apply Cm | apply Cd] |].
  split; [apply toordinal_ord2ymd |].
  split; [split; intros K; [apply Y in K; lia | apply Y; lia] |].
  split; intros; lia.
Qed.

Lemma decoded_birth_date_witness :
  decode_nic "910010000V" 2
  = Ok (mkNICInfo OLD MALE 1991 1 1 (mkdate 1990 12 31))
  /\ (1 < 2 -> year (mkdate 1990 12 31) < 1991).
Proof.
  split; [reflexivity |].
  exact (proj1 (proj2 (proj2 (proj2
           (decoded_birth_date "910010000V" 2
              (mkNICInfo OLD MALE 1991 1 1 (mkdate 1990 12 31)) eq_refl))))).
Defined.

(** X8. For one birth year, two successful calls of [nic_to_date]
    return dates as many days apart as the two values of
    [day_code - offset] differ, and the same date exactly when these
    values are equal. *)
Theorem nic_to_date_difference y d off d' off' r r' :
  nic_to_date y d off = Ok r ->
  nic_to_date y d' off' = Ok r' ->
  toordinal r' - toordinal r = (d' - off') - (d - off)
  /\ (r = r' <-> d - off = d' - off').
Proof.
  intros H H'. apply nic_to_date_asked in H, H'.
  destruct H as (_ & _ & ->), H' as (_ & _ & ->).
  pose proof (asked_ordinal_eq y d off) as A.
  pose proof (asked_ordinal_eq y d' off') as A'.
  generalize dependent (asked_ordinal y d' off'). intros n' A'.
  generalize dependent (asked_ordinal y d off). intros n A.
  rewrite !toordinal_ord2ymd. split; [lia |]. split.
  - intros E. apply (f_equal toordinal) in E. rewrite !toordinal_ord2ymd in E. lia.
  - intros E. replace n' with n by lia. reflexivity.
Qed.

Lemma nic_to_date_difference_witness :
  nic_to_date 1991 268 2 = Ok (mkdate 1991 9 24)
  /\ nic_to_date 1991 300 5 = Ok (mkdate 1991 10 23)
  /\ toordinal (mkdate 1991 10 23) - toordinal (mkdate 1991 9 24)
     = (300 - 5) - (268 - 2).
Proof.
  split; [reflexivity |]. split; [reflexivity |].
  exact (proj1 (nic_to_date_difference 1991 268 2 300 5
                  (mkdate 1991 9 24) (mkdate 1991 10 23) eq_refl eq_refl)).
Defined.

(** ** Validated strings and the demonstration script *)

Lemma adjusted_day_code raw :
  0 <= raw <= 999 ->
  0 <= snd (gender_and_day_code raw) <= 500
  /\ (snd (gender_and_day_code raw) <= 373 <-> raw <= 373 \/ 501 <= raw <= 873).
Proof.
  intros B. destruct (gender_and_day_code_cases raw) as [[H ->] | [H ->]];
    cbn [snd]; lia.
Qed.

(** A validated old-format string and the default offset: the decoder
    raises the day-code range error or returns a record. *)
Lemma valid_old_decode_cases nic :
  PyStr.len (PyStr.strip nic) = 10 -> is_valid_nic nic = true ->
  exists y raw,
    parse_nic_base nic = Ok (OLD, y, raw)
    /\ raw = decimal_value (PyStr.slice 2 5 (PyStr.strip nic))
    /\ 1926 <= y <= 2025 /\ 0 <= raw <= 999
    /\ ((373 < snd (gender_and_day_code raw)
         /\ decode_nic nic DEFAULT_NIC_DAY_OFFSET = Err DayCodeOutOfRange)
        \/ (snd (gender_and_day_code raw) <= 373
            /\ exists bd,
                decode_nic nic DEFAULT_NIC_DAY_OFFSET
                = Ok (mkNICInfo OLD (fst (gender_and_day_code raw)) y raw
                        (snd (gender_and_day_code raw)) bd)
                /\ y - 1 <= year bd <= y + 1)).
Proof.
  intros L V. pose proof (is_valid_nic_old_digits nic L V) as D.
  destruct (parse_old_digits nic L D) as (P & By & Br).
  destruct (century_year_range (decimal_value (PyStr.slice 0 2 (PyStr.strip nic)))
              ltac:(lia)) as [C1 C2].
  exists (century_year (decimal_value (PyStr.slice 0 2 (PyStr.strip nic)))),
    (decimal_value (PyStr.slice 2 5 (PyStr.strip nic))).
  split; [exact P |]. split; [reflexivity |]. split; [lia |]. split; [lia |].
  rewrite (decode_nic_unfold nic DEFAULT_NIC_DAY_OFFSET _ _ _ P).
  generalize dependent (century_year (decimal_value (PyStr.slice 0 2 (PyStr.strip nic)))).
  intros y _ C1 C2.
  generalize dependent (decimal_value (PyStr.slice 2 5 (PyStr.strip nic))).
  intros raw Br. destruct (adjusted_day_code raw Br) as [Bd _].
  generalize dependent (snd (gender_and_day_code raw)). intros dc Bd.
  generalize (fst (gender_and_day_code raw)). intros g.
  unfold DEFAULT_NIC_DAY_OFFSET.
  destruct (Z.ltb_spec dc 0); [lia |]. cbn [orb].
  destruct (Z.ltb_spec (366 + 2 + 5) dc); [left; split; [lia | reflexivity] |].
  right. split; [lia |].
  rewrite nic_to_date_cases.
  pose proof (asked_ordinal_eq y dc 2) as A.
  pose proof (ord2ymd_year_le (asked_ordinal y dc 2) (y + 1)) as Hi.
  pose proof (ord2ymd_year_ge (asked_ordinal y dc 2) (y - 1)) as Lo.
  generalize dependent (ord2ymd (asked_ordinal y dc 2)). intros bd Hi Lo.
  generalize dependent (asked_ordinal y dc 2). intros n A Hi Lo.
  pose proof (days_before_year_mono 1926 y ltac:(lia)) as M1.
  pose proof (days_before_year_mono y 2025 ltac:(lia)) as M2.
  change (days_before_year 1926) with 703091 in M1.
  change (days_before_year 2025) with 739251 in M2.
  pose proof (days_before_year_two y) as T.
  pose proof (days_in_year_succ (y - 1)) as S.
  replace (y - 1 + 1) with y in S by lia.
  pose proof (days_in_year_range (y - 1)) as Rg.
  assert (INT_MIN < 0 /\ 9999 < INT_MAX) as [I1 I2] by (unfold INT_MIN, INT_MAX; lia).
  unfold MAXORDINAL in *.
  destruct (Z.ltb_spec y INT_MIN); [lia |].
  destruct (Z.ltb_spec INT_MAX y); [lia |].
  destruct (Z.ltb_spec y 1); [lia |].
  destruct (Z.ltb_spec 9999 y); [lia |].
  destruct (Z.ltb_spec 0 n); [| lia].
  destruct (Z.leb_spec n 3652059); [| lia].
  cbn [orb andb bind]. exists bd. split; [reflexivity | lia].
Qed.

(** X12. For an old-format string that [is_valid_nic] accepts and the
    default offset, [decode_nic] returns a record exactly when the three
    day digits write a number in 0..373 or 501..873, and raises the
    day-code range error, and no other error, exactly for 374..500 and
    for 874 and above.  A returned record has the old format, a birth year
    in 1926..2025, and a birth date whose year is at most one away from
    the birth year. *)
Theorem valid_old_format_decodes nic :
  PyStr.len (PyStr.strip nic) = 10 -> is_valid_nic nic = true ->
  (decode_nic nic DEFAULT_NIC_DAY_OFFSET = Err DayCodeOutOfRange
   <-> 374 <= decimal_value (PyStr.slice 2 5 (PyStr.strip nic)) <= 500
       \/ 874 <= decimal_value (PyStr.slice 2 5 (PyStr.strip nic)))
  /\ ((exists info, decode_nic nic DEFAULT_NIC_DAY_OFFSET = Ok info)
      <-> decimal_value (PyStr.slice 2 5 (PyStr.strip nic)) <= 373
          \/ 501 <= decimal_value (PyStr.slice 2 5 (PyStr.strip nic)) <= 873)
  /\ (forall e, decode_nic nic DEFAULT_NIC_DAY_OFFSET = Err e -> e = DayCodeOutOfRange)
  /\ (forall info,
         decode_nic nic DEFAULT_NIC_DAY_OFFSET = Ok info ->
         nic_type info = OLD
         /\ 1926 <= birth_year info <= 2025
         /\ raw_day_code info = decimal_value (PyStr.slice 2 5 (PyStr.strip nic))
         /\ birth_year info - 1 <= year (birth_date info) <= birth_year info + 1).
Proof.
  intros L V.
  destruct (valid_old_decode_cases nic L V) as (y & raw & _ & <- & By & Br & H).
  destruct (adjusted_day_code raw Br) as [_ Hd].
  destruct H as [[Hdc ->] | [Hdc (bd & -> & Hy)]].
  - split; [split; [lia | reflexivity] |].
    split; [split; [intros [info K]; discriminate K | lia] |].
    split; [intros e [= <-]; reflexivity | discriminate].
  - split; [split; [discriminate | lia] |].
    split; [split; [lia | eexists; reflexivity] |].
    split; [discriminate |].
    intros info [= <-]. cbn [nic_type birth_year raw_day_code birth_date].
    repeat split; lia.
Qed.

Lemma valid_old_format_decodes_witness :
  PyStr.len (PyStr.strip "915000000V") = 10 /\ is_valid_nic "915000000V" = true
  /\ (decode_nic "915000000V" DEFAULT_NIC_DAY_OFFSET = Err DayCodeOutOfRange
      <-> 374 <= decimal_value (PyStr.slice 2 5 (PyStr.strip "915000000V")) <= 500
          \/ 874 <= decimal_value (PyStr.slice 2 5 (PyStr.strip "915000000V"))).
Proof.
  split; [reflexivity |]. split; [reflexivity |].
  exact (proj1 (valid_old_format_decodes "915000000V" eq_refl eq_refl)).
Defined.

(** X13. [process_nic] of the demonstration script returns the message
    for an invalid NIC when [is_valid_nic] rejects the string, and the
    formatted line when the string is accepted and decoded.  It raises
    exactly when the string is accepted and [decode_nic] raises, with the
    same error; that error is never one of the three format errors of the
    parser: it is the error of [int], the day-code range error, the error
    of [datetime] or the date error, and for an old-format string only the
    day-code range error. *)
Theorem process_nic_outcome strftime nic :
  (is_valid_nic nic = false -> process_nic strftime nic = Ok ("Invalid NIC: " ++ nic))
  /\ (forall info,
         is_valid_nic nic = true ->
         decode_nic nic DEFAULT_NIC_DAY_OFFSET = Ok info ->
         process_nic strftime nic
         = Ok (nic ++ " -> " ++ strftime (birth_date info) "%B %d, %Y"
               ++ " (" ++ gender info ++ ")"))
  /\ (forall e,
         process_nic strftime nic = Err e
         <-> is_valid_nic nic = true /\ decode_nic nic DEFAULT_NIC_DAY_OFFSET = Err e)
  /\ (forall e,
         process_nic strftime nic = Err e ->
         e = InvalidLiteral \/ e = DayCodeOutOfRange \/ e = FieldOutOfRange
         \/ e = DateOutOfRange)
  /\ (forall e,
         process_nic strftime nic = Err e -> PyStr.len (PyStr.strip nic) = 10 ->
         e = DayCodeOutOfRange).
Proof.
  assert (forall e, process_nic strftime nic = Err e
                    <-> is_valid_nic nic = true
                        /\ decode_nic nic DEFAULT_NIC_DAY_OFFSET = Err e) as Herr.
  { intros e. unfold process_nic. destruct (is_valid_nic nic); cbn [negb].
    - destruct (decode_nic nic DEFAULT_NIC_DAY_OFFSET); cbn [bind];
        split; [discriminate | intros [_ K]; discriminate K | intros [= <-]; auto
               | intros [_ [= <-]]; reflexivity].
    - split; [discriminate | intros [K _]; discriminate K]. }
  split; [intros V; unfold process_nic; rewrite V; reflexivity |].
  split; [intros info V D; unfold process_nic; rewrite V, D; reflexivity |].
  split; [exact Herr |]. split.
  - intros e K. apply Herr in K. destruct K as [V D].
    destruct (parse_nic_base nic) as [[[k y] raw] | e0] eqn:P.
    + destruct (decode_nic_late_errors nic _ k y raw e P D) as [-> | [-> | ->]]; auto.
    + rewrite (decode_nic_parse_failure nic _ e0 P) in D. injection D as <-.
      destruct (is_valid_nic_length nic V) as [L | L].
      * pose proof (is_valid_nic_old_digits nic L V) as Dg.
        destruct (parse_old_digits nic L Dg) as (P' & _). congruence.
      * rewrite (is_valid_nic_new nic L) in V.
        destruct (parse_new_digits nic L V) as [(_ & P' & _) | (_ & P')];
          [congruence |]. left. congruence.
  - intros e K L. apply Herr in K. destruct K as [V D].
    destruct (valid_old_decode_cases nic L V) as (y & raw & _ & _ & _ & _ & H).
    destruct H as [[_ H] | [_ (bd & H & _)]]; congruence.
Qed.
